(** * pipelined_cli: the management CLI of the pipelined service

    A shallow embedding of [lte/gateway/python/scripts/pipelined_cli.py].
    Every CLI command is a function of its parsed arguments, the gRPC stub
    it is handed and the collaborators it imports; it runs in a small
    state-and-exception monad whose state records what the command printed
    and which RPCs it issued. *)

From Stdlib Require Import ZArith Ascii String.
From stdpp Require Import gmap strings list fin_maps pretty.

Open Scope string_scope.

(** ** Python primitives used by the script *)

Module Py.

(** [s.split(sep)] for a one-character separator: the pieces between
    the separators, one more piece than there are separators. *)
Fixpoint split (sep : ascii) (s : string) : list string :=
  match s with
  | EmptyString => [EmptyString]
  | String c rest =>
      if Ascii.eqb c sep then EmptyString :: split sep rest
      else match split sep rest with
           | [] => [String c EmptyString]
           | piece :: pieces => String c piece :: pieces
           end
  end.

(** [sep.join(pieces)], the inverse of [split]. *)
Fixpoint join (sep : ascii) (pieces : list string) : string :=
  match pieces with
  | [] => EmptyString
  | [piece] => piece
  | piece :: rest => piece ++ String sep (join sep rest)
  end.

(** Truth value of a value that is [None] or a [str]: [None] and the
    empty string are falsy. *)
Definition truthy (v : option string) : bool :=
  match v with
  | None => false
  | Some s => negb (String.eqb s "")
  end.

(** [c * n] for a one-character string [c]. *)
Fixpoint repeat_char (c : ascii) (n : nat) : string :=
  match n with
  | O => EmptyString
  | S n' => String c (repeat_char c n')
  end.

(** The format field [{:<width}]: left-aligned, padded with spaces up
    to [width], never truncated. *)
Definition ljust (width : nat) (s : string) : string :=
  s ++ repeat_char " " (width - String.length s).

(** [str(n)] for a non-negative [int]. *)
Definition str_int (n : N) : string := pretty n.

(** [str(l)] for a list of non-negative [int]s: [[1, 2, 3]]. *)
Fixpoint str_items (l : list N) : string :=
  match l with
  | [] => ""
  | [n] => str_int n
  | n :: rest => str_int n ++ ", " ++ str_items rest
  end.

Definition str_list (l : list N) : string := "[" ++ str_items l ++ "]".

End Py.

(** ** Exceptions, and the monad the commands run in *)

(** The exceptions the script distinguishes: [subprocess.CalledProcessError]
    with its [returncode], caught by the flow-dump commands, and every
    other exception, named by its class. *)
Inductive Exception : Type :=
| CalledProcessError (returncode : Z)
| OtherException (name : string).

(** [errno.EPERM]. *)
Definition EPERM : Z := 1.

(** A call either raises or returns. *)
Definition Exc (A : Type) : Type := Exception + A.

Definition raised {A} (e : Exception) : Exc A := inl e.
Definition returned {A} (a : A) : Exc A := inr a.

(** ** Protocol messages, as the script builds and reads them

    One module per message class; a field the script never sets keeps its
    protobuf default (empty list, zero, unset). *)

(** Modelled from the spec: the subscriber identifier and the address
    message are declared in the protobuf files, which are not part of the
    script; the spec describes the subscriber identifier as an opaque key,
    so both are kept as opaque strings. *)
Definition SubscriberID : Type := string.
Definition IPAddress : Type := string.

(** [RequestOriginType.type]: the authority a request comes from. *)
Inductive RequestOriginType : Type := GX | GY.

Inductive Direction : Type := UPLINK | DOWNLINK.

Module FlowMatch.
Record t : Type := mk {
  ip_src : option IPAddress;
  ip_dst : option IPAddress;
  direction : Direction }.
End FlowMatch.

Module FlowDescription.
Record t : Type := mk { match_ : FlowMatch.t }.
End FlowDescription.

Module RedirectInformation.
Record t : Type := mk {
  support : Z;
  address_type : Z;
  server_address : string }.
End RedirectInformation.

Module PolicyRule.
Record t : Type := mk {
  id : string;
  priority : Z;
  hard_timeout : Z;
  flow_list : list FlowDescription.t;
  redirect : option RedirectInformation.t }.
End PolicyRule.

Module ActivateFlowsRequest.
Record t : Type := mk {
  sid : SubscriberID;
  ip_addr : string;
  rule_ids : list string;
  dynamic_rules : list PolicyRule.t;
  request_origin : RequestOriginType }.
End ActivateFlowsRequest.

Module DeactivateFlowsRequest.
Record t : Type := mk {
  sid : SubscriberID;
  ip_addr : string;
  rule_ids : list string;
  request_origin : RequestOriginType }.
End DeactivateFlowsRequest.

Module RuleModResult.
Record t : Type := mk { rule_id : string; result : Z }.
End RuleModResult.

Module ActivateFlowsResult.
Record t : Type := mk {
  static_rule_results : list RuleModResult.t;
  dynamic_rule_results : list RuleModResult.t }.
End ActivateFlowsResult.

Module SubscriberQuotaUpdate.
Record t : Type := mk {
  sid : SubscriberID;
  mac_addr : string;
  update_type : Z }.
End SubscriberQuotaUpdate.

Module UpdateSubscriberQuotaStateRequest.
Record t : Type := mk { updates : list SubscriberQuotaUpdate.t }.
End UpdateSubscriberQuotaStateRequest.

Module TableAssignment.
Record t : Type := mk {
  app_name : string;
  main_table : N;
  scratch_tables : list N }.
End TableAssignment.

Module AllTableAssignments.
Record t : Type := mk { table_assignments : list TableAssignment.t }.
End AllTableAssignments.

(** [magma.pipelined.service_manager.Tables], a named tuple; the script
    always passes [type=None]. *)
Module Tables.
Record t : Type := mk {
  main_table : N;
  type : option string;
  scratch_tables : list N }.
End Tables.

(** ** The world a command acts on *)

(** The RPCs the embedded commands issue on the stub. *)
Inductive Rpc : Type :=
| RpcActivateFlows (request : ActivateFlowsRequest.t)
| RpcDeactivateFlows (request : DeactivateFlowsRequest.t)
| RpcUpdateSubscriberQuotaState (request : UpdateSubscriberQuotaStateRequest.t)
| RpcGetAllTableAssignments.

(** What is observable of a run: the lines printed, and the RPCs issued,
    both oldest first. *)
Record World : Type := mkWorld {
  stdout : list string;
  rpcs : list Rpc }.

Definition Cmd (A : Type) : Type := World -> Exc A * World.

Definition ret {A} (a : A) : Cmd A := fun w => (returned a, w).

Definition bind {A B} (c : Cmd A) (k : A -> Cmd B) : Cmd B :=
  fun w =>
    match c w with
    | (inr a, w') => k a w'
    | (inl e, w') => (inl e, w')
    end.

Definition raise {A} (e : Exception) : Cmd A := fun w => (raised e, w).

(** A call into a collaborator: it raises or returns, the world is as it
    was. *)
Definition call {A} (r : Exc A) : Cmd A := fun w => (r, w).

(** [print(line)]. *)
Definition print (line : string) : Cmd unit :=
  fun w => (returned tt, mkWorld (stdout w ++ [line]) (rpcs w)).

(** A method call on the stub: the call is issued, then it raises or
    returns. *)
Definition rpc {A} (r : Rpc) (response : Exc A) : Cmd A :=
  fun w => (response, mkWorld (stdout w) (rpcs w ++ [r])).

Declare Scope cmd_scope.
Delimit Scope cmd_scope with cmd.
Notation "x <- c ;; k" := (bind c (fun x => k))
  (at level 100, c at next level, right associativity) : cmd_scope.
Notation "c ;;; k" := (bind c (fun _ => k))
  (at level 100, right associativity) : cmd_scope.
Open Scope cmd_scope.

(** [try: x = body / except ...: handler / (rest of the function)], for an
    except clause that ends in [return]: [handler e] is [None] when no
    except clause matches [e], which then propagates. An exception raised
    by [rest] is outside the [try] and is not handled. *)
Definition try_except {A B} (body : Cmd A)
    (handler : Exception -> option (Cmd B)) (rest : A -> Cmd B) : Cmd B :=
  fun w =>
    match body w with
    | (inr a, w') => rest a w'
    | (inl e, w') =>
        match handler e with
        | Some h => h w'
        | None => (inl e, w')
        end
    end.

(** [for x in l: body(x)]. *)
Fixpoint for_ {A} (l : list A) (body : A -> Cmd unit) : Cmd unit :=
  match l with
  | [] => ret tt
  | x :: rest => body x ;;; for_ rest body
  end.

(** [d[key]] on a dict: [KeyError] when the key is absent. *)
Definition getitem {V} (d : gmap string V) (key : string) : Cmd V :=
  match d !! key with
  | Some v => ret v
  | None => raise (OtherException "KeyError")
  end.

(** [o.attr] where [o] may be [None]: [AttributeError] on [None]. *)
Definition deref {A} (o : option A) : Cmd A :=
  match o with
  | Some a => ret a
  | None => raise (OtherException "AttributeError")
  end.

(** ** Arguments, stub and imported collaborators *)

(** The [argparse.Namespace] handed to a command. An option that has no
    default and was not given is [None]. *)
Record Namespace : Type := mkNamespace {
  imsi : string;
  ipv4 : string;
  rule_ids : option string;
  rule_id : string;
  ipv4_dst : string;
  priority : Z;
  hard_timeout : Z;
  redirect_addr : string;
  mac : string;
  update_type : Z;
  apps : option string;
  table_num : option string }.

(** The methods of [PipelinedStub] the embedded commands call. A method
    raises or returns its response; [UpdateSubscriberQuotaState] is
    compared with [None] by its caller, so its response is optional. *)
Record PipelinedStub : Type := mkStub {
  ActivateFlows : ActivateFlowsRequest.t -> Exc ActivateFlowsResult.t;
  DeactivateFlows : DeactivateFlowsRequest.t -> Exc unit;
  UpdateSubscriberQuotaState :
    UpdateSubscriberQuotaStateRequest.t -> Exc (option unit);
  GetAllTableAssignments : unit -> Exc AllTableAssignments.t }.

(** What the script imports from the rest of the repository and calls:
    only these functions' results matter here, so they are parameters.

    The message classes are generated from the protobuf files, which
    declare the type of every field. A constructor checks the integers
    it is given against these types and raises when one does not fit:
    [PolicyRule_validate] stands for the check of [priority] and
    [hard_timeout] by [PolicyRule(...)], [SubscriberQuotaUpdate_validate]
    for the check of [update_type] by [SubscriberQuotaUpdate(...)]. The
    constants the script passes itself (999, 1, 2) and its strings always
    fit. *)
Record Imports : Type := mkImports {
  SIDUtils_to_pb : string -> Exc SubscriberID;
  convert_ipv4_str_to_ip_proto : string -> Exc IPAddress;
  PolicyRule_validate : Z -> Z -> Exc unit;
  SubscriberQuotaUpdate_validate : Z -> Exc unit;
  RuleModResult_Result_Name : Z -> Exc string;
  load_service_config : string -> Exc (gmap string string);
  BridgeTools_get_flows_for_bridge :
    string -> option string -> Exc (list string);
  BridgeTools_get_annotated_flows_for_bridge :
    string -> gmap string Tables.t -> option (list string) ->
    Exc (list string);
  EnforcementController_APP_NAME : string;
  EnforcementStatsController_APP_NAME : string }.

(** ** The commands

    Each definition is the body of the function of the same name; the
    [grpc_wrapper] decorator, which builds the stub and calls the body, is
    imported by the script and is not modelled. *)

Section Commands.

Variable lib : Imports.

Definition _print_rule_mod_results (results : list RuleModResult.t)
  : Cmd unit :=
  for_ results (fun result =>
    name <- call (RuleModResult_Result_Name lib (RuleModResult.result result)) ;;
    print (RuleModResult.rule_id result ++ " " ++ name)).

Definition activate_flows (client : PipelinedStub) (args : Namespace)
  : Cmd unit :=
  sid <- call (SIDUtils_to_pb lib (imsi args)) ;;
  ids <- deref (rule_ids args) ;;
  let request :=
    ActivateFlowsRequest.mk sid (ipv4 args) (Py.split "," ids) [] GX in
  response <- rpc (RpcActivateFlows request) (ActivateFlows client request) ;;
  _print_rule_mod_results (ActivateFlowsResult.static_rule_results response).

Definition deactivate_flows (client : PipelinedStub) (args : Namespace)
  : Cmd unit :=
  sid <- call (SIDUtils_to_pb lib (imsi args)) ;;
  ids <- (if Py.truthy (rule_ids args)
          then s <- deref (rule_ids args) ;; ret (Py.split "," s)
          else ret []) ;;
  let request := DeactivateFlowsRequest.mk sid (ipv4 args) ids GX in
  rpc (RpcDeactivateFlows request) (DeactivateFlows client request).

Definition activate_dynamic_rule (client : PipelinedStub) (args : Namespace)
  : Cmd unit :=
  sid <- call (SIDUtils_to_pb lib (imsi args)) ;;
  dst <- call (convert_ipv4_str_to_ip_proto lib (ipv4_dst args)) ;;
  src <- call (convert_ipv4_str_to_ip_proto lib (ipv4_dst args)) ;;
  call (PolicyRule_validate lib (priority args) (hard_timeout args)) ;;;
  let request :=
    ActivateFlowsRequest.mk sid (ipv4 args) []
      [PolicyRule.mk (rule_id args) (priority args) (hard_timeout args)
         [FlowDescription.mk (FlowMatch.mk None (Some dst) UPLINK);
          FlowDescription.mk (FlowMatch.mk (Some src) None DOWNLINK)]
         None]
      GX in
  response <- rpc (RpcActivateFlows request) (ActivateFlows client request) ;;
  _print_rule_mod_results (ActivateFlowsResult.dynamic_rule_results response).

Definition activate_gy_redirect (client : PipelinedStub) (args : Namespace)
  : Cmd unit :=
  sid <- call (SIDUtils_to_pb lib (imsi args)) ;;
  let request :=
    ActivateFlowsRequest.mk sid (ipv4 args) []
      [PolicyRule.mk (rule_id args) 999 0 []
         (Some (RedirectInformation.mk 1 2 (redirect_addr args)))]
      GY in
  response <- rpc (RpcActivateFlows request) (ActivateFlows client request) ;;
  _print_rule_mod_results (ActivateFlowsResult.dynamic_rule_results response).

Definition deactivate_gy_flows (client : PipelinedStub) (args : Namespace)
  : Cmd unit :=
  sid <- call (SIDUtils_to_pb lib (imsi args)) ;;
  ids <- (if Py.truthy (rule_ids args)
          then s <- deref (rule_ids args) ;; ret (Py.split "," s)
          else ret []) ;;
  let request := DeactivateFlowsRequest.mk sid (ipv4 args) ids GY in
  rpc (RpcDeactivateFlows request) (DeactivateFlows client request).

Definition update_quota (client : PipelinedStub) (args : Namespace)
  : Cmd unit :=
  sid <- call (SIDUtils_to_pb lib (imsi args)) ;;
  call (SubscriberQuotaUpdate_validate lib (update_type args)) ;;;
  let update := SubscriberQuotaUpdate.mk sid (mac args) (update_type args) in
  let request := UpdateSubscriberQuotaStateRequest.mk [update] in
  res <- rpc (RpcUpdateSubscriberQuotaState request)
             (UpdateSubscriberQuotaState client request) ;;
  match res with
  | None => print "Error updating check quota flows"
  | Some _ => ret tt
  end.

(** ['{:<25}{:<20}{:<25}'.format(a, b, c)]. *)
Definition table_template (a b c : string) : string :=
  Py.ljust 25 a ++ Py.ljust 20 b ++ Py.ljust 25 c.

Definition get_table_assignment (client : PipelinedStub) (args : Namespace)
  : Cmd unit :=
  response <- rpc RpcGetAllTableAssignments
                  (GetAllTableAssignments client tt) ;;
  let table_assignments := AllTableAssignments.table_assignments response in
  table_assignments <-
    (if Py.truthy (apps args)
     then s <- deref (apps args) ;;
          let app_filter := Py.split "," s in
          ret (filter (fun table_assignment =>
                         TableAssignment.app_name table_assignment
                           ∈ app_filter)
                      table_assignments)
     else ret table_assignments) ;;
  print (table_template "App" "Main Table" "Scratch Tables") ;;;
  print (Py.repeat_char "-" 70) ;;;
  for_ table_assignments (fun table_assignment =>
    print (table_template
             (TableAssignment.app_name table_assignment)
             (Py.str_int (TableAssignment.main_table table_assignment))
             (Py.str_list (TableAssignment.scratch_tables table_assignment)))).

(** The except clause shared by the two flow-dump commands:
    [except subprocess.CalledProcessError as e], printing only for
    [EPERM], then [return]. *)
Definition dump_failed (e : Exception) : option (Cmd unit) :=
  match e with
  | CalledProcessError returncode =>
      Some (if Z.eqb returncode EPERM
            then print "Need to run as root to dump flows"
            else ret tt)
  | OtherException _ => None
  end.

Definition display_raw_flows (_unused : PipelinedStub) (args : Namespace)
  : Cmd unit :=
  pipelined_config <- call (load_service_config lib "pipelined") ;;
  bridge_name <- getitem pipelined_config "bridge_name" ;;
  try_except
    (call (BridgeTools_get_flows_for_bridge lib bridge_name (table_num args)))
    dump_failed
    (fun flows => for_ flows print).

(** The dict comprehension of [_display_flows]: a later assignment with
    the same [app_name] replaces an earlier one. *)
Definition tables_by_app (l : list TableAssignment.t)
  : gmap string Tables.t :=
  foldl (fun d table_assignment =>
           <[TableAssignment.app_name table_assignment :=
               Tables.mk (TableAssignment.main_table table_assignment) None
                 (TableAssignment.scratch_tables table_assignment)]> d)
        ∅ l.

Definition _display_flows (client : PipelinedStub)
    (apps : option (list string)) : Cmd unit :=
  pipelined_config <- call (load_service_config lib "pipelined") ;;
  bridge_name <- getitem pipelined_config "bridge_name" ;;
  response <- rpc RpcGetAllTableAssignments
                  (GetAllTableAssignments client tt) ;;
  let table_assignments :=
    tables_by_app (AllTableAssignments.table_assignments response) in
  try_except
    (call (BridgeTools_get_annotated_flows_for_bridge lib
             bridge_name table_assignments apps))
    dump_failed
    (fun flows => for_ flows print).

Definition display_enforcement_flows (client : PipelinedStub)
    (_unused : Namespace) : Cmd unit :=
  _display_flows client
    (Some [EnforcementController_APP_NAME lib;
           EnforcementStatsController_APP_NAME lib]).

Definition display_flows (client : PipelinedStub) (args : Namespace)
  : Cmd unit :=
  match apps args with
  | None => _display_flows client None
  | Some s => _display_flows client (Some (Py.split "," s))
  end.

End Commands.

(** ** The service behind the stub

    The script only issues requests; the Rule Store, the quota gate and
    the Table Allocator that serve them are described by the
    specification (sections 3 and 4) and are modelled from it here. *)

Module Controller.

#[global] Instance RequestOriginType_eq_dec : EqDecision RequestOriginType.
Proof. solve_decision. Defined.

#[global] Instance RequestOriginType_countable : Countable RequestOriginType.
Proof.
  refine (inj_countable' (fun o => match o with GX => false | GY => true end)
                         (fun b => if b then GY else GX) _).
  intros []; reflexivity.
Defined.

(** Modelled from the spec: the key of a rule activation record,
    (subscriber, rule id, origin); the Rule Store of the pipelined service
    is not part of the script. *)
Definition RuleKey : Type := SubscriberID * string * RequestOriginType.

Definition key_subscriber (k : RuleKey) : SubscriberID := k.1.1.
Definition key_rule_id (k : RuleKey) : string := k.1.2.
Definition key_origin (k : RuleKey) : RequestOriginType := k.2.

(** Modelled from the spec: the Rule Store holds at most one activation
    record per (subscriber, rule id, origin). *)
Abbreviation RuleStore := (gmap RuleKey PolicyRule.t).

(** Modelled from the spec: [upsert(subscriber, rule, origin)] inserts or
    replaces the record and returns the previous one, if any. *)
Definition upsert (subscriber : SubscriberID) (rule : PolicyRule.t)
    (origin : RequestOriginType) (store : RuleStore)
  : option PolicyRule.t * RuleStore :=
  let k : RuleKey := (subscriber, PolicyRule.id rule, origin) in
  (store !! k, <[k := rule]> store).

(** Modelled from the spec: [remove(subscriber, rule_id, origin)] removes
    one record if present and tells whether there was one. *)
Definition remove (subscriber : SubscriberID) (rule_id : string)
    (origin : RequestOriginType) (store : RuleStore) : bool * RuleStore :=
  let k : RuleKey := (subscriber, rule_id, origin) in
  (bool_decide (is_Some (store !! k)), delete k store).

(** Modelled from the spec: the records [remove_all(subscriber, origin)]
    is about. *)
Definition owned_by (subscriber : SubscriberID) (origin : RequestOriginType)
    (k : RuleKey) : Prop :=
  key_subscriber k = subscriber /\ key_origin k = origin.

#[global] Instance owned_by_dec subscriber origin k :
  Decision (owned_by subscriber origin k).
Proof. unfold owned_by. apply _. Defined.

(** Modelled from the spec: [remove_all(subscriber, origin)] removes every
    record of that subscriber and origin and returns the removed ids. *)
Definition remove_all (subscriber : SubscriberID)
    (origin : RequestOriginType) (store : RuleStore)
  : list string * RuleStore :=
  (map (fun kv : RuleKey * PolicyRule.t => key_rule_id kv.1)
       (map_to_list
          (filter (fun kv : RuleKey * PolicyRule.t =>
                     owned_by subscriber origin kv.1) store)),
   filter (fun kv : RuleKey * PolicyRule.t =>
             ~ owned_by subscriber origin kv.1) store).

(** Modelled from the spec: the controller's DeactivateFlows. With rule
    ids it removes each named record; with none it removes all records of
    the request's (subscriber, origin). *)
Definition HandleDeactivateFlows (request : DeactivateFlowsRequest.t)
    (store : RuleStore) : RuleStore :=
  let subscriber := DeactivateFlowsRequest.sid request in
  let origin := DeactivateFlowsRequest.request_origin request in
  match DeactivateFlowsRequest.rule_ids request with
  | [] => (remove_all subscriber origin store).2
  | ids => foldl (fun st rule_id => (remove subscriber rule_id origin st).2)
                 store ids
  end.

(** Modelled from the spec: the tri-state of the quota-gating rule. *)
Inductive QuotaState : Type := VALID | EXHAUSTED | TERMINATE.

(** Modelled from the spec: the meaning of the [update_type] numbers,
    0 valid quota, 1 quota exhausted, 2 terminate. *)
Definition quota_state_of (update_type : Z) : option QuotaState :=
  if Z.eqb update_type 0 then Some VALID
  else if Z.eqb update_type 1 then Some EXHAUSTED
  else if Z.eqb update_type 2 then Some TERMINATE
  else None.

(** Modelled from the spec: the content of a subscriber's quota-gating
    rule. *)
Record GatingRule : Type := mkGatingRule {
  gate_mac_addr : string;
  gate_state : QuotaState }.

(** Modelled from the spec: [UpdateQuotaState(subscriber, mac_addr,
    quota_state)]. TERMINATE removes the subscriber's gating rule; the
    other two states update its content. *)
Definition UpdateQuotaState (subscriber : SubscriberID) (mac_addr : string)
    (quota_state : QuotaState) (gates : gmap SubscriberID GatingRule)
  : gmap SubscriberID GatingRule :=
  match quota_state with
  | TERMINATE => delete subscriber gates
  | VALID | EXHAUSTED =>
      <[subscriber := mkGatingRule mac_addr quota_state]> gates
  end.

(** Modelled from the spec: the table numbers an assignment holds, its
    main table and its scratch tables. *)
Definition tables_of (a : TableAssignment.t) : list N :=
  TableAssignment.main_table a :: TableAssignment.scratch_tables a.

(** Modelled from the spec: the layout agreed at process start, giving
    every application its main table and its scratch tables. *)
Definition Layout : Type := string -> N * list N.

Definition assignment_of (layout : Layout) (app_name : string)
  : TableAssignment.t :=
  TableAssignment.mk app_name (layout app_name).1 (layout app_name).2.

Definition overlap (l1 l2 : list N) : bool :=
  existsb (fun n => bool_decide (n ∈ l2)) l1.

(** Modelled from the spec: a new assignment collides when one of its
    table numbers is held by another registered application. *)
Definition collides (a : TableAssignment.t)
    (assigned : gmap string TableAssignment.t) : bool :=
  existsb (fun kv : string * TableAssignment.t =>
             bool_decide (kv.1 <> TableAssignment.app_name a)
             && overlap (tables_of a) (tables_of kv.2))
          (map_to_list assigned).

Inductive AllocatorError : Type := TableSpaceConflict.

(** Modelled from the spec: [register(app_name)] assigns the application
    the tables of the layout; colliding table numbers are a fatal
    configuration error. *)
Definition register (layout : Layout) (app_name : string)
    (assigned : gmap string TableAssignment.t)
  : AllocatorError + (TableAssignment.t * gmap string TableAssignment.t) :=
  let a := assignment_of layout app_name in
  if collides a assigned then inl TableSpaceConflict
  else inr (a, <[app_name := a]> assigned).

(** Modelled from the spec: process start registers the applications one
    after the other and stops at the first collision. *)
Fixpoint startup_from (layout : Layout) (apps : list string)
    (assigned : gmap string TableAssignment.t)
  : AllocatorError + gmap string TableAssignment.t :=
  match apps with
  | [] => inr assigned
  | app_name :: rest =>
      match register layout app_name assigned with
      | inl e => inl e
      | inr (_, assigned') => startup_from layout rest assigned'
      end
  end.

Definition startup (layout : Layout) (apps : list string)
  : AllocatorError + gmap string TableAssignment.t :=
  startup_from layout apps ∅.

(** Modelled from the spec: [assignments()], the snapshot read by the
    diagnostics; the assignment map is not changed after process start. *)
Definition assignments (assigned : gmap string TableAssignment.t)
  : list TableAssignment.t :=
  (map_to_list assigned).*2.

(** Modelled from the spec: the invariant of the table space. Two
    different applications hold no table number in common. *)
Definition pairwise_disjoint (assigned : gmap string TableAssignment.t)
  : Prop :=
  forall a b ta tb n,
    assigned !! a = Some ta -> assigned !! b = Some tb -> a <> b ->
    n ∈ tables_of ta -> n ∉ tables_of tb.

(** The assignment maps the allocator can be in: the empty one, and those
    a successful registration leads to. *)
Inductive reachable (layout : Layout)
  : gmap string TableAssignment.t -> Prop :=
| reach_empty : reachable layout ∅
| reach_register app_name assigned a assigned' :
    reachable layout assigned ->
    register layout app_name assigned = inr (a, assigned') ->
    reachable layout assigned'.

(** Modelled from the spec: registration is deterministic, so every
    registered application holds the tables the layout gives it. *)
Definition follows_layout (layout : Layout)
    (assigned : gmap string TableAssignment.t) : Prop :=
  forall k ta, assigned !! k = Some ta -> ta = assignment_of layout k.

End Controller.

(** ** Concrete inputs

    The parser defaults, a stub that answers every request with success,
    and collaborators for a gateway whose bridge is [gtp_br0]. *)

(** The defaults of [create_parser]; [rule_id] is that of
    [activate_dynamic_rule]. *)
Definition default_args : Namespace :=
  {| imsi := "IMSI12345"; ipv4 := "120.12.1.9"; rule_ids := None;
     rule_id := "rule1"; ipv4_dst := ""; priority := 0; hard_timeout := 0;
     redirect_addr := "http://about.sha.ddih.org/";
     mac := "5e:cc:cc:b1:49:ff"; update_type := 0;
     apps := None; table_num := None |}.

Definition with_rule_ids (v : option string) (a : Namespace) : Namespace :=
  mkNamespace (imsi a) (ipv4 a) v (rule_id a) (ipv4_dst a) (priority a)
    (hard_timeout a) (redirect_addr a) (mac a) (update_type a) (apps a)
    (table_num a).

Definition with_priority (v : Z) (a : Namespace) : Namespace :=
  mkNamespace (imsi a) (ipv4 a) (rule_ids a) (rule_id a) (ipv4_dst a) v
    (hard_timeout a) (redirect_addr a) (mac a) (update_type a) (apps a)
    (table_num a).

Definition with_update_type (v : Z) (a : Namespace) : Namespace :=
  mkNamespace (imsi a) (ipv4 a) (rule_ids a) (rule_id a) (ipv4_dst a)
    (priority a) (hard_timeout a) (redirect_addr a) (mac a) v (apps a)
    (table_num a).

Definition with_apps (v : option string) (a : Namespace) : Namespace :=
  mkNamespace (imsi a) (ipv4 a) (rule_ids a) (rule_id a) (ipv4_dst a)
    (priority a) (hard_timeout a) (redirect_addr a) (mac a) (update_type a)
    v (table_num a).

Definition empty_world : World := mkWorld [] [].

Definition sample_tables : list TableAssignment.t :=
  [TableAssignment.mk "ue_mac" 1%N [];
   TableAssignment.mk "enforcement" 13%N [21%N];
   TableAssignment.mk "enforcement_stats" 14%N [22%N; 23%N]].

Definition sample_stub : PipelinedStub :=
  {| ActivateFlows := fun request =>
       returned (ActivateFlowsResult.mk
         (map (fun i => RuleModResult.mk i 0)
              (ActivateFlowsRequest.rule_ids request))
         (map (fun r => RuleModResult.mk (PolicyRule.id r) 0)
              (ActivateFlowsRequest.dynamic_rules request)));
     DeactivateFlows := fun _ => returned tt;
     UpdateSubscriberQuotaState := fun _ => returned (Some tt);
     GetAllTableAssignments := fun _ =>
       returned (AllTableAssignments.mk sample_tables) |}.

(** The ranges of the protobuf integer types [uint32] and [int32]. *)
Definition in_uint32 (v : Z) : bool := (0 <=? v)%Z && (v <? 2 ^ 32)%Z.
Definition in_int32 (v : Z) : bool := (- 2 ^ 31 <=? v)%Z && (v <? 2 ^ 31)%Z.

(** The checks of the sample gateway's message classes: [priority] and
    [hard_timeout] are [uint32] fields, [update_type] is an enum field,
    which takes any [int32]; a value out of range is a [ValueError]. *)
Definition sample_PolicyRule_validate (priority hard_timeout : Z)
  : Exc unit :=
  if in_uint32 priority && in_uint32 hard_timeout then returned tt
  else raised (OtherException "ValueError").

Definition sample_SubscriberQuotaUpdate_validate (update_type : Z)
  : Exc unit :=
  if in_int32 update_type then returned tt
  else raised (OtherException "ValueError").

(** Collaborators whose flow dump has the outcome [dump]. *)
Definition sample_lib (dump : Exc (list string)) : Imports :=
  {| SIDUtils_to_pb := fun s => returned s;
     convert_ipv4_str_to_ip_proto := fun s => returned s;
     PolicyRule_validate := sample_PolicyRule_validate;
     SubscriberQuotaUpdate_validate := sample_SubscriberQuotaUpdate_validate;
     RuleModResult_Result_Name := fun r =>
       if Z.eqb r 0 then returned "SUCCESS"
       else raised (OtherException "ValueError");
     load_service_config := fun _ =>
       returned ({["bridge_name" := "gtp_br0"]} : gmap string string);
     BridgeTools_get_flows_for_bridge := fun _ _ => dump;
     BridgeTools_get_annotated_flows_for_bridge := fun _ _ _ => dump;
     EnforcementController_APP_NAME := "enforcement";
     EnforcementStatsController_APP_NAME := "enforcement_stats" |}.

(** The dynamic rules a run has sent for activation, with the origin of
    the request that carries them. *)
Definition issued_dynamic_rules (w : World)
  : list (RequestOriginType * PolicyRule.t) :=
  flat_map (fun r =>
              match r with
              | RpcActivateFlows request =>
                  map (pair (ActivateFlowsRequest.request_origin request))
                      (ActivateFlowsRequest.dynamic_rules request)
              | _ => []
              end)
           (rpcs w).

(** A layout in which [enforcement] and [enforcement_stats] are given the
    same scratch table. *)
Definition colliding_layout : Controller.Layout :=
  fun app_name =>
    if String.eqb app_name "ue_mac" then (1%N, [])
    else if String.eqb app_name "enforcement" then (13%N, [21%N])
    else if String.eqb app_name "enforcement_stats" then (14%N, [21%N; 22%N])
    else (0%N, []).

Definition sample_layout : Controller.Layout :=
  fun app_name =>
    if String.eqb app_name "ue_mac" then (1%N, [])
    else if String.eqb app_name "enforcement" then (13%N, [21%N])
    else if String.eqb app_name "enforcement_stats" then (14%N, [22%N; 23%N])
    else (0%N, []).

(** ** Further inputs and vocabulary for the properties *)

(** The line [_print_rule_mod_results] prints for a result whose code has
    the name [name]: [print] separates its two arguments by a space. *)
Definition result_line (result : RuleModResult.t) (name : string) : string :=
  RuleModResult.rule_id result ++ " " ++ name.

(** The value [_display_flows] stores for an assignment. *)
Definition tables_entry (a : TableAssignment.t) : Tables.t :=
  Tables.mk (TableAssignment.main_table a) None
    (TableAssignment.scratch_tables a).

(** The embedded commands, as the parser's [func] would be called. *)
Definition all_commands (lib : Imports) (client : PipelinedStub)
    (args : Namespace) : list (Cmd unit) :=
  [activate_flows lib client args;
   deactivate_flows lib client args;
   activate_dynamic_rule lib client args;
   activate_gy_redirect lib client args;
   deactivate_gy_flows lib client args;
   update_quota lib client args;
   get_table_assignment client args;
   display_raw_flows lib client args;
   display_enforcement_flows lib client args;
   display_flows lib client args].

(** A stub all of whose methods raise [e]. *)
Definition failing_stub (e : Exception) : PipelinedStub :=
  {| ActivateFlows := fun _ => raised e;
     DeactivateFlows := fun _ => raised e;
     UpdateSubscriberQuotaState := fun _ => raised e;
     GetAllTableAssignments := fun _ => raised e |}.

(** A stub that answers activations with the results [static] and
    [dynamic], and quota updates with [quota]. *)
Definition answering_stub (static dynamic : list RuleModResult.t)
    (quota : option unit) : PipelinedStub :=
  {| ActivateFlows := fun _ =>
       returned (ActivateFlowsResult.mk static dynamic);
     DeactivateFlows := fun _ => returned tt;
     UpdateSubscriberQuotaState := fun _ => returned quota;
     GetAllTableAssignments := fun _ =>
       returned (AllTableAssignments.mk sample_tables) |}.

(** Collaborators given piecewise: the outcome of encoding a subscriber
    id, of converting an address, of loading the configuration and of
    dumping the flows. *)
Definition lib_of (sid : Exc SubscriberID) (address : Exc IPAddress)
    (config : Exc (gmap string string)) (dump : Exc (list string))
  : Imports :=
  {| SIDUtils_to_pb := fun _ => sid;
     convert_ipv4_str_to_ip_proto := fun _ => address;
     PolicyRule_validate := sample_PolicyRule_validate;
     SubscriberQuotaUpdate_validate := sample_SubscriberQuotaUpdate_validate;
     RuleModResult_Result_Name := fun r =>
       if Z.eqb r 0 then returned "SUCCESS"
       else if Z.eqb r 1 then returned "PARTIAL_SUCCESS"
       else if Z.eqb r 2 then returned "FAILURE"
       else raised (OtherException "ValueError");
     load_service_config := fun _ => config;
     BridgeTools_get_flows_for_bridge := fun _ _ => dump;
     BridgeTools_get_annotated_flows_for_bridge := fun _ _ _ => dump;
     EnforcementController_APP_NAME := "enforcement";
     EnforcementStatsController_APP_NAME := "enforcement_stats" |}.

(** Commands that issue at most one RPC and take none back. *)
Definition issues_at_most_one {A} (c : Cmd A) : Prop :=
  forall w, exists issued : list Rpc,
    rpcs (c w).2 = (rpcs w ++ issued)%list /\ List.length issued <= 1.

(** Number of separators in a string. *)
Fixpoint count_sep (sep : ascii) (s : string) : nat :=
  match s with
  | EmptyString => 0
  | String c rest => (if Ascii.eqb c sep then 1 else 0) + count_sep sep rest
  end.

(** Commands that issue no RPC. *)
Definition keeps_rpcs {A} (c : Cmd A) : Prop :=
  forall w, rpcs (c w).2 = rpcs w.

(** * Properties *)

Open Scope list_scope.

(** ** [split] and [join] *)

Lemma split_not_nil sep s : Py.split sep s <> [].
Proof.
  destruct s as [|c s]; simpl; [discriminate|].
  destruct (Ascii.eqb c sep); [discriminate|].
  destruct (Py.split sep s); discriminate.
Qed.

Lemma split_empty sep : Py.split sep "" = [""].
Proof. reflexivity. Qed.

Lemma length_split sep s :
  List.length (Py.split sep s) = S (count_sep sep s).
Proof.
  induction s as [|c s IH]; simpl; [reflexivity|].
  destruct (Ascii.eqb c sep); simpl; [now rewrite IH|].
  destruct (Py.split sep s) eqn:E; simpl in *; [discriminate|exact IH].
Qed.

Lemma join_split sep s : Py.join sep (Py.split sep s) = s.
Proof.
  induction s as [|c s IH]; simpl; [reflexivity|].
  destruct (Ascii.eqb c sep) eqn:Ec.
  - apply Ascii.eqb_eq in Ec; subst c.
    pose proof (split_not_nil sep s) as Hne.
    destruct (Py.split sep s) as [|p ps]; [congruence|].
    simpl in *. now rewrite IH.
  - pose proof (split_not_nil sep s) as Hne.
    destruct (Py.split sep s) as [|p ps]; [congruence|].
    destruct ps as [|q qs]; simpl in *; now rewrite <- IH.
Qed.

Lemma split_pieces_no_sep sep s :
  Forall (fun piece => count_sep sep piece = 0) (Py.split sep s).
Proof.
  induction s as [|c s IH]; simpl.
  - repeat constructor.
  - destruct (Ascii.eqb c sep) eqn:Ec.
    + constructor; [reflexivity|exact IH].
    + destruct (Py.split sep s) as [|p ps]; simpl.
      * repeat constructor. simpl. now rewrite Ec.
      * inversion IH as [|? ? Hp Hps]; subst.
        constructor; [|exact Hps]. simpl. now rewrite Ec.
Qed.

Lemma split_no_sep sep s : count_sep sep s = 0 -> Py.split sep s = [s].
Proof.
  induction s as [|c s IH]; simpl; [reflexivity|].
  destruct (Ascii.eqb c sep); simpl; [discriminate|].
  intros H. now rewrite (IH H).
Qed.

Lemma split_append_sep sep a b :
  Py.split sep (a ++ String sep b)%string
  = Py.split sep a ++ Py.split sep b.
Proof.
  induction a as [|c a IH]; simpl.
  - now rewrite Ascii.eqb_refl.
  - destruct (Ascii.eqb c sep); [now rewrite IH|].
    rewrite IH. pose proof (split_not_nil sep a) as Hne.
    destruct (Py.split sep a) as [|p ps]; [congruence|reflexivity].
Qed.

(** Splitting what [join] built gives the pieces back, when no piece
    holds a separator. *)
Lemma split_join sep pieces :
  pieces <> [] ->
  Forall (fun piece => count_sep sep piece = 0) pieces ->
  Py.split sep (Py.join sep pieces) = pieces.
Proof.
  induction pieces as [|p ps IH]; intros Hne Hall; [congruence|].
  inversion Hall as [|? ? Hp Hps]; subst.
  destruct ps as [|q qs].
  - simpl. now apply split_no_sep.
  - change (Py.join sep (p :: q :: qs))
      with (p ++ String sep (Py.join sep (q :: qs)))%string.
    rewrite split_append_sep, (split_no_sep sep p Hp), IH; [reflexivity| |].
    + discriminate.
    + exact Hps.
Qed.



(** ** Running commands *)

Lemma bind_returned {A B} (c : Cmd A) (k : A -> Cmd B) w a w' :
  c w = (returned a, w') -> bind c k w = k a w'.
Proof. unfold bind; now intros ->. Qed.

Lemma bind_raised {A B} (c : Cmd A) (k : A -> Cmd B) w e w' :
  c w = (raised e, w') -> bind c k w = (raised e, w').
Proof. unfold bind; now intros ->. Qed.

(** A loop that prints one line per element appends these lines, in
    order, and does nothing else. *)
Lemma for_print {A} (f : A -> string) (l : list A) w :
  for_ l (fun x => print (f x)) w
  = (returned tt, mkWorld (stdout w ++ map f l) (rpcs w)).
Proof.
  revert w; induction l as [|x l IH]; intros [out log]; simpl.
  - unfold ret; simpl. now rewrite app_nil_r.
  - unfold bind, print; simpl. rewrite IH; simpl.
    now rewrite <- app_assoc.
Qed.

Lemma keeps_rpcs_ret {A} (a : A) : keeps_rpcs (ret a).
Proof. now intros w. Qed.

Lemma keeps_rpcs_call {A} (r : Exc A) : keeps_rpcs (call r).
Proof. now intros w. Qed.

Lemma keeps_rpcs_print line : keeps_rpcs (print line).
Proof. now intros w. Qed.

Lemma keeps_rpcs_bind {A B} (c : Cmd A) (k : A -> Cmd B) :
  keeps_rpcs c -> (forall a, keeps_rpcs (k a)) -> keeps_rpcs (bind c k).
Proof.
  intros Hc Hk w. unfold bind. specialize (Hc w).
  destruct (c w) as [[e|a] w']; simpl in *; [exact Hc|].
  now rewrite Hk.
Qed.

Lemma keeps_rpcs_for {A} (l : list A) (body : A -> Cmd unit) :
  (forall x, keeps_rpcs (body x)) -> keeps_rpcs (for_ l body).
Proof.
  intros Hb. induction l as [|x l IH]; simpl.
  - apply keeps_rpcs_ret.
  - apply keeps_rpcs_bind; [apply Hb|intros _; exact IH].
Qed.

Lemma keeps_rpcs_print_rule_mod_results lib results :
  keeps_rpcs (_print_rule_mod_results lib results).
Proof.
  apply keeps_rpcs_for. intros x.
  apply keeps_rpcs_bind; [apply keeps_rpcs_call|].
  intros a; apply keeps_rpcs_print.
Qed.

(** An RPC followed by the printing of its results: exactly that RPC is
    issued, whatever the stub answers. *)
Lemma rpcs_after_call lib request response
    (results : ActivateFlowsResult.t -> list RuleModResult.t) w :
  rpcs (bind (rpc (RpcActivateFlows request) response)
             (fun r => _print_rule_mod_results lib (results r)) w).2
  = rpcs w ++ [RpcActivateFlows request].
Proof.
  unfold bind, rpc. destruct response as [e|r]; simpl; [reflexivity|].
  now rewrite keeps_rpcs_print_rule_mod_results.
Qed.

(** ** The requests the enforcement commands issue *)

Lemma activate_flows_rpcs lib client args sid ids w :
  SIDUtils_to_pb lib (imsi args) = returned sid ->
  rule_ids args = Some ids ->
  rpcs (activate_flows lib client args w).2
  = rpcs w ++ [RpcActivateFlows
                 (ActivateFlowsRequest.mk sid (ipv4 args)
                    (Py.split "," ids) [] GX)].
Proof.
  intros Hsid Hids. unfold activate_flows.
  rewrite (bind_returned _ _ w sid w) by (unfold call; now rewrite Hsid).
  rewrite (bind_returned _ _ w ids w) by (now rewrite Hids).
  apply rpcs_after_call.
Qed.

(** The rule ids of a deactivation request: the pieces of the argument,
    or none when the argument is omitted or empty. *)
Lemma deactivation_rpcs lib client args sid w :
  SIDUtils_to_pb lib (imsi args) = returned sid ->
  let ids := match rule_ids args with
             | Some s => if String.eqb s "" then [] else Py.split "," s
             | None => []
             end in
  rpcs (deactivate_flows lib client args w).2
  = rpcs w ++ [RpcDeactivateFlows
                 (DeactivateFlowsRequest.mk sid (ipv4 args) ids GX)]
  /\ rpcs (deactivate_gy_flows lib client args w).2
     = rpcs w ++ [RpcDeactivateFlows
                    (DeactivateFlowsRequest.mk sid (ipv4 args) ids GY)].
Proof.
  intros Hsid ids. unfold deactivate_flows, deactivate_gy_flows.
  rewrite !(bind_returned _ _ w sid w) by (unfold call; now rewrite Hsid).
  assert (Hids : (if Py.truthy (rule_ids args)
                  then bind (deref (rule_ids args))
                            (fun s => ret (Py.split "," s))
                  else ret []) w = (returned ids, w)).
  { subst ids. destruct (rule_ids args) as [s|]; simpl; [|reflexivity].
    destruct (String.eqb s ""); reflexivity. }
  rewrite !(bind_returned _ _ w ids w) by exact Hids.
  split; reflexivity.
Qed.

Lemma activate_gy_redirect_rpcs lib client args sid w :
  SIDUtils_to_pb lib (imsi args) = returned sid ->
  rpcs (activate_gy_redirect lib client args w).2
  = rpcs w ++ [RpcActivateFlows
                 (ActivateFlowsRequest.mk sid (ipv4 args) []
                    [PolicyRule.mk (rule_id args) 999 0 []
                       (Some (RedirectInformation.mk 1 2
                                (redirect_addr args)))]
                    GY)].
Proof.
  intros Hsid. unfold activate_gy_redirect.
  rewrite (bind_returned _ _ w sid w) by (unfold call; now rewrite Hsid).
  apply rpcs_after_call.
Qed.

Lemma activate_dynamic_rule_rpcs lib client args sid dst w :
  SIDUtils_to_pb lib (imsi args) = returned sid ->
  convert_ipv4_str_to_ip_proto lib (ipv4_dst args) = returned dst ->
  PolicyRule_validate lib (priority args) (hard_timeout args)
  = returned tt ->
  rpcs (activate_dynamic_rule lib client args w).2
  = rpcs w ++ [RpcActivateFlows
                 (ActivateFlowsRequest.mk sid (ipv4 args) []
                    [PolicyRule.mk (rule_id args) (priority args)
                       (hard_timeout args)
                       [FlowDescription.mk
                          (FlowMatch.mk None (Some dst) UPLINK);
                        FlowDescription.mk
                          (FlowMatch.mk (Some dst) None DOWNLINK)]
                       None]
                    GX)].
Proof.
  intros Hsid Hdst Hfit. unfold activate_dynamic_rule.
  rewrite (bind_returned _ _ w sid w) by (unfold call; now rewrite Hsid).
  rewrite !(bind_returned _ _ w dst w) by (unfold call; now rewrite Hdst).
  rewrite (bind_returned _ _ w tt w) by (unfold call; now rewrite Hfit).
  apply rpcs_after_call.
Qed.

(** Nothing is sent when the subscriber id cannot be encoded. *)
Lemma no_request_without_sid lib client args e w :
  SIDUtils_to_pb lib (imsi args) = raised e ->
  rpcs (activate_flows lib client args w).2 = rpcs w
  /\ rpcs (deactivate_flows lib client args w).2 = rpcs w
  /\ rpcs (activate_dynamic_rule lib client args w).2 = rpcs w
  /\ rpcs (activate_gy_redirect lib client args w).2 = rpcs w
  /\ rpcs (deactivate_gy_flows lib client args w).2 = rpcs w.
Proof.
  intros Hsid.
  unfold activate_flows, deactivate_flows, activate_dynamic_rule,
    activate_gy_redirect, deactivate_gy_flows.
  rewrite !(bind_raised _ _ w e w) by (unfold call; now rewrite Hsid).
  repeat split.
Qed.

(** C9. When the rule-id argument of [activate_flows] is the empty string,
    the activation request carries exactly one rule id, the empty string
    (the split of the empty string is a one-element list); the
    deactivation commands, given the same argument, send an empty
    rule-id list. *)
Theorem activate_flows_empty_rule_ids lib client args sid w :
  SIDUtils_to_pb lib (imsi args) = returned sid ->
  rule_ids args = Some "" ->
  Py.split "," "" = [""]
  /\ rpcs (activate_flows lib client args w).2
     = rpcs w ++ [RpcActivateFlows
                    (ActivateFlowsRequest.mk sid (ipv4 args) [""] [] GX)]
  /\ rpcs (deactivate_flows lib client args w).2
     = rpcs w ++ [RpcDeactivateFlows
                    (DeactivateFlowsRequest.mk sid (ipv4 args) [] GX)].
Proof.
  intros Hsid Hids. split; [reflexivity|]. split.
  - now rewrite (activate_flows_rpcs lib client args sid "" w Hsid Hids).
  - destruct (deactivation_rpcs lib client args sid w Hsid) as [H _].
    rewrite Hids in H. exact H.
Qed.

Lemma activate_flows_empty_rule_ids_witness :
  let lib := sample_lib (returned []) in
  let args := with_rule_ids (Some "") default_args in
  SIDUtils_to_pb lib (imsi args) = returned "IMSI12345"
  /\ rule_ids args = Some ""
  /\ (Py.split "," "" = [""]
      /\ rpcs (activate_flows lib sample_stub args empty_world).2
         = rpcs empty_world
           ++ [RpcActivateFlows
                 (ActivateFlowsRequest.mk "IMSI12345" (ipv4 args) [""] []
                    GX)]
      /\ rpcs (deactivate_flows lib sample_stub args empty_world).2
         = rpcs empty_world
           ++ [RpcDeactivateFlows
                 (DeactivateFlowsRequest.mk "IMSI12345" (ipv4 args) []
                    GX)]).
Proof.
  intros lib args. split; [reflexivity|]. split; [reflexivity|].
  apply (activate_flows_empty_rule_ids lib sample_stub args "IMSI12345"
           empty_world); reflexivity.
Defined.

(** C3. For [deactivate_flows] and [deactivate_gy_flows], an omitted
    rule-id argument and an explicitly empty one both produce a
    deactivation request whose rule-id list is empty. *)
Theorem deactivate_omitted_or_empty_rule_ids lib client args sid w :
  SIDUtils_to_pb lib (imsi args) = returned sid ->
  rule_ids args = None \/ rule_ids args = Some "" ->
  rpcs (deactivate_flows lib client args w).2
  = rpcs w ++ [RpcDeactivateFlows
                 (DeactivateFlowsRequest.mk sid (ipv4 args) [] GX)]
  /\ rpcs (deactivate_gy_flows lib client args w).2
     = rpcs w ++ [RpcDeactivateFlows
                    (DeactivateFlowsRequest.mk sid (ipv4 args) [] GY)].
Proof.
  intros Hsid Hids.
  pose proof (deactivation_rpcs lib client args sid w Hsid) as H.
  destruct Hids as [Hids|Hids]; rewrite Hids in H; exact H.
Qed.

Lemma deactivate_omitted_or_empty_rule_ids_witness :
  let lib := sample_lib (returned []) in
  let omitted := default_args in
  let empty := with_rule_ids (Some "") default_args in
  (SIDUtils_to_pb lib (imsi omitted) = returned "IMSI12345"
   /\ (rule_ids omitted = None \/ rule_ids omitted = Some "")
   /\ rpcs (deactivate_flows lib sample_stub omitted empty_world).2
      = rpcs empty_world
        ++ [RpcDeactivateFlows
              (DeactivateFlowsRequest.mk "IMSI12345" (ipv4 omitted) [] GX)]
   /\ rpcs (deactivate_gy_flows lib sample_stub omitted empty_world).2
      = rpcs empty_world
        ++ [RpcDeactivateFlows
              (DeactivateFlowsRequest.mk "IMSI12345" (ipv4 omitted) [] GY)])
  /\ (SIDUtils_to_pb lib (imsi empty) = returned "IMSI12345"
      /\ (rule_ids empty = None \/ rule_ids empty = Some "")
      /\ rpcs (deactivate_flows lib sample_stub empty empty_world).2
         = rpcs empty_world
           ++ [RpcDeactivateFlows
                 (DeactivateFlowsRequest.mk "IMSI12345" (ipv4 empty) [] GX)]
      /\ rpcs (deactivate_gy_flows lib sample_stub empty empty_world).2
         = rpcs empty_world
           ++ [RpcDeactivateFlows
                 (DeactivateFlowsRequest.mk "IMSI12345" (ipv4 empty) []
                    GY)]).
Proof.
  intros lib omitted empty. split.
  - split; [reflexivity|]. split; [left; reflexivity|].
    apply (deactivate_omitted_or_empty_rule_ids lib sample_stub omitted
             "IMSI12345" empty_world); [reflexivity|left; reflexivity].
  - split; [reflexivity|]. split; [right; reflexivity|].
    apply (deactivate_omitted_or_empty_rule_ids lib sample_stub empty
             "IMSI12345" empty_world); [reflexivity|right; reflexivity].
Defined.

(** C2. Every redirect activation issued by [activate_gy_redirect] sends
    one ActivateFlows request whose single dynamic rule has origin GY
    (CHARGING), no flow descriptors, a redirect directive whose server
    address is the caller's redirect address, and priority 999 whatever
    the arguments are. *)
Theorem activate_gy_redirect_request lib client args sid w :
  SIDUtils_to_pb lib (imsi args) = returned sid ->
  exists request rule directive,
    rpcs (activate_gy_redirect lib client args w).2
    = rpcs w ++ [RpcActivateFlows request]
    /\ ActivateFlowsRequest.request_origin request = GY
    /\ ActivateFlowsRequest.dynamic_rules request = [rule]
    /\ PolicyRule.flow_list rule = []
    /\ PolicyRule.redirect rule = Some directive
    /\ RedirectInformation.server_address directive = redirect_addr args
    /\ PolicyRule.priority rule = 999%Z.
Proof.
  intros Hsid. eexists _, _, _.
  split; [exact (activate_gy_redirect_rpcs lib client args sid w Hsid)|].
  simpl. repeat split.
Qed.

Lemma activate_gy_redirect_request_witness :
  let lib := sample_lib (returned []) in
  SIDUtils_to_pb lib (imsi default_args) = returned "IMSI12345"
  /\ exists request rule directive,
       rpcs (activate_gy_redirect lib sample_stub default_args
               empty_world).2
       = rpcs empty_world ++ [RpcActivateFlows request]
       /\ ActivateFlowsRequest.request_origin request = GY
       /\ ActivateFlowsRequest.dynamic_rules request = [rule]
       /\ PolicyRule.flow_list rule = []
       /\ PolicyRule.redirect rule = Some directive
       /\ RedirectInformation.server_address directive
          = redirect_addr default_args
       /\ PolicyRule.priority rule = 999%Z.
Proof.
  intros lib. split; [reflexivity|].
  apply (activate_gy_redirect_request lib sample_stub default_args
           "IMSI12345" empty_world).
  reflexivity.
Defined.

(** ** Redirect priority against policy priority *)

(** C1, as stated, fails: with [--priority 1000] the POLICY rule sent by
    [activate_dynamic_rule] has a priority above that of the redirect
    rule sent by [activate_gy_redirect] for the same subscriber. *)
Lemma redirect_priority_can_be_exceeded :
  let lib := sample_lib (returned []) in
  ~ (forall rule_gx rule_gy,
       (GX, rule_gx)
         ∈ issued_dynamic_rules
             (activate_dynamic_rule lib sample_stub
                (with_priority 1000 default_args) empty_world).2 ->
       (GY, rule_gy)
         ∈ issued_dynamic_rules
             (activate_gy_redirect lib sample_stub default_args
                empty_world).2 ->
       (PolicyRule.priority rule_gx < PolicyRule.priority rule_gy)%Z).
Proof.
  intros lib H.
  specialize (H (PolicyRule.mk "rule1" 1000 0
                   [FlowDescription.mk (FlowMatch.mk None (Some "") UPLINK);
                    FlowDescription.mk
                      (FlowMatch.mk (Some "") None DOWNLINK)]
                   None)
                (PolicyRule.mk "rule1" 999 0 []
                   (Some (RedirectInformation.mk 1 2
                            "http://about.sha.ddih.org/")))).
  simpl in H. apply (Z.lt_irrefl 999). apply Z.lt_trans with 1000%Z.
  - reflexivity.
  - apply H; apply list_elem_of_singleton; reflexivity.
Qed.

(** C1, amended. The redirect rule sent by [activate_gy_redirect] always
    has priority 999 and origin GY. The script puts no bound of its own
    on the priority of [activate_dynamic_rule]: whenever the [PolicyRule]
    constructor accepts the caller's priority and hard timeout, the rule
    is sent with origin GX and the caller's priority unchanged. The
    redirect rule therefore has the higher priority exactly when the
    caller's priority is below 999. *)
Theorem redirect_priority_against_policy_priority
    lib client args_gx args_gy sid_gx dst sid_gy w_gx w_gy :
  SIDUtils_to_pb lib (imsi args_gx) = returned sid_gx ->
  convert_ipv4_str_to_ip_proto lib (ipv4_dst args_gx) = returned dst ->
  PolicyRule_validate lib (priority args_gx) (hard_timeout args_gx)
  = returned tt ->
  SIDUtils_to_pb lib (imsi args_gy) = returned sid_gy ->
  exists request_gx rule_gx request_gy rule_gy,
    rpcs (activate_dynamic_rule lib client args_gx w_gx).2
    = rpcs w_gx ++ [RpcActivateFlows request_gx]
    /\ ActivateFlowsRequest.request_origin request_gx = GX
    /\ ActivateFlowsRequest.dynamic_rules request_gx = [rule_gx]
    /\ PolicyRule.priority rule_gx = priority args_gx
    /\ rpcs (activate_gy_redirect lib client args_gy w_gy).2
       = rpcs w_gy ++ [RpcActivateFlows request_gy]
    /\ ActivateFlowsRequest.request_origin request_gy = GY
    /\ ActivateFlowsRequest.dynamic_rules request_gy = [rule_gy]
    /\ PolicyRule.priority rule_gy = 999%Z
    /\ ((PolicyRule.priority rule_gx < PolicyRule.priority rule_gy)%Z
        <-> (priority args_gx < 999)%Z).
Proof.
  intros Hgx Hdst Hfit Hgy. eexists _, _, _, _.
  split; [exact (activate_dynamic_rule_rpcs lib client args_gx sid_gx dst
                   w_gx Hgx Hdst Hfit)|].
  do 3 (split; [reflexivity|]).
  split; [exact (activate_gy_redirect_rpcs lib client args_gy sid_gy w_gy
                   Hgy)|].
  do 3 (split; [reflexivity|]).
  simpl. reflexivity.
Qed.

Lemma redirect_priority_against_policy_priority_witness :
  let lib := sample_lib (returned []) in
  let args_gx := with_priority 1000 default_args in
  SIDUtils_to_pb lib (imsi args_gx) = returned "IMSI12345"
  /\ convert_ipv4_str_to_ip_proto lib (ipv4_dst args_gx) = returned ""
  /\ PolicyRule_validate lib (priority args_gx) (hard_timeout args_gx)
     = returned tt
  /\ SIDUtils_to_pb lib (imsi default_args) = returned "IMSI12345"
  /\ exists request_gx rule_gx request_gy rule_gy,
       rpcs (activate_dynamic_rule lib sample_stub args_gx empty_world).2
       = rpcs empty_world ++ [RpcActivateFlows request_gx]
       /\ ActivateFlowsRequest.request_origin request_gx = GX
       /\ ActivateFlowsRequest.dynamic_rules request_gx = [rule_gx]
       /\ PolicyRule.priority rule_gx = priority args_gx
       /\ rpcs (activate_gy_redirect lib sample_stub default_args
                  empty_world).2
          = rpcs empty_world ++ [RpcActivateFlows request_gy]
       /\ ActivateFlowsRequest.request_origin request_gy = GY
       /\ ActivateFlowsRequest.dynamic_rules request_gy = [rule_gy]
       /\ PolicyRule.priority rule_gy = 999%Z
       /\ ((PolicyRule.priority rule_gx < PolicyRule.priority rule_gy)%Z
           <-> (priority args_gx < 999)%Z).
Proof.
  intros lib args_gx. do 4 (split; [reflexivity|]).
  apply (redirect_priority_against_policy_priority lib sample_stub args_gx
           default_args "IMSI12345" "" "IMSI12345" empty_world empty_world);
    reflexivity.
Defined.

(** ** Deactivation and the Rule Store *)

Section RuleStore.

Import Controller.

Implicit Types (store : RuleStore) (k : RuleKey).

Lemma remove_all_lookup subscriber origin store k :
  (remove_all subscriber origin store).2 !! k
  = if decide (owned_by subscriber origin k) then None else store !! k.
Proof.
  unfold remove_all; simpl. apply option_eq; intros rule.
  rewrite map_lookup_filter_Some; simpl.
  destruct (decide (owned_by subscriber origin k)) as [Ho|Ho].
  - split; [intros [_ Hno]; contradiction|discriminate].
  - split; [intros [Hk _]; exact Hk|intros Hk; split; [exact Hk|exact Ho]].
Qed.

Lemma remove_each_lookup subscriber origin ids store k :
  foldl (fun st rule_id => (remove subscriber rule_id origin st).2) store ids
    !! k
  = if decide (owned_by subscriber origin k /\ key_rule_id k ∈ ids)
    then None else store !! k.
Proof.
  revert store; induction ids as [|i ids IH]; intros store; simpl.
  - case_decide as H; [|reflexivity]. destruct H as [_ H]. inversion H.
  - rewrite IH. unfold remove; simpl.
    destruct (decide (owned_by subscriber origin k /\ key_rule_id k ∈ ids))
      as [Hin|Hout].
    + rewrite decide_True; [reflexivity|].
      destruct Hin as [Ho Hi]. split; [exact Ho|now right].
    + destruct (decide (owned_by subscriber origin k
                        /\ key_rule_id k ∈ i :: ids)) as [[Ho Hi]|Hnot].
      * apply elem_of_cons in Hi as [Hi|Hi]; [|now destruct Hout].
        destruct k as [[s r] o]. destruct Ho as [Hs Hor].
        unfold key_subscriber, key_rule_id, key_origin in *; simpl in *.
        subst. apply lookup_delete_eq.
      * apply lookup_delete_ne. intros <-. apply Hnot.
        split; [split; reflexivity|now left].
Qed.

(** What a deactivation leaves in the store: the records of the request's
    subscriber and origin that it names (all of them when it names none)
    are gone, every other record is as it was. *)
Lemma HandleDeactivateFlows_lookup request store k :
  HandleDeactivateFlows request store !! k
  = if decide (owned_by (DeactivateFlowsRequest.sid request)
                 (DeactivateFlowsRequest.request_origin request) k
               /\ (DeactivateFlowsRequest.rule_ids request = []
                   \/ key_rule_id k
                        ∈ DeactivateFlowsRequest.rule_ids request))
    then None else store !! k.
Proof.
  unfold HandleDeactivateFlows.
  destruct (DeactivateFlowsRequest.rule_ids request) as [|i ids] eqn:E.
  - rewrite remove_all_lookup.
    destruct (decide (owned_by (DeactivateFlowsRequest.sid request)
                        (DeactivateFlowsRequest.request_origin request) k))
      as [Ho|Ho].
    + rewrite decide_True; [reflexivity|split; [exact Ho|now left]].
    + rewrite decide_False; [reflexivity|intros [Ho' _]; contradiction].
  - rewrite remove_each_lookup.
    destruct (decide (owned_by (DeactivateFlowsRequest.sid request)
                        (DeactivateFlowsRequest.request_origin request) k
                      /\ key_rule_id k ∈ i :: ids)) as [[Ho Hi]|Hnot].
    + rewrite decide_True; [reflexivity|split; [exact Ho|now right]].
    + rewrite decide_False; [reflexivity|].
      intros [Ho [Hx|Hx]]; [discriminate|apply Hnot; now split].
Qed.

Lemma HandleDeactivateFlows_other_origin request store k :
  key_origin k <> DeactivateFlowsRequest.request_origin request ->
  HandleDeactivateFlows request store !! k = store !! k.
Proof.
  intros Hne. rewrite HandleDeactivateFlows_lookup.
  case_decide as H; [|reflexivity].
  destruct H as [[_ H] _]. contradiction.
Qed.

(** An empty rule-id list removes exactly the records of the request's
    subscriber and origin. *)
Lemma HandleDeactivateFlows_teardown request store k :
  DeactivateFlowsRequest.rule_ids request = [] ->
  HandleDeactivateFlows request store !! k
  = if decide (owned_by (DeactivateFlowsRequest.sid request)
                 (DeactivateFlowsRequest.request_origin request) k)
    then None else store !! k.
Proof.
  intros Hids. rewrite HandleDeactivateFlows_lookup.
  destruct (decide (owned_by (DeactivateFlowsRequest.sid request)
                      (DeactivateFlowsRequest.request_origin request) k))
    as [Ho|Ho].
  - rewrite decide_True; [reflexivity|split; [exact Ho|now left]].
  - rewrite decide_False; [reflexivity|intros [Ho' _]; contradiction].
Qed.

(** Activating a rule and then deactivating it by name leaves no record
    of it for that subscriber and origin. *)
Lemma upsert_then_deactivate subscriber ip_addr rule origin store :
  HandleDeactivateFlows
    (DeactivateFlowsRequest.mk subscriber ip_addr [PolicyRule.id rule]
       origin)
    (upsert subscriber rule origin store).2
    !! (subscriber, PolicyRule.id rule, origin)
  = None.
Proof.
  rewrite HandleDeactivateFlows_lookup; simpl.
  rewrite decide_True; [reflexivity|].
  split; [split; reflexivity|right; now left].
Qed.

End RuleStore.

(** C4. Every deactivation request names exactly one origin:
    [deactivate_flows] sends GX (POLICY), [deactivate_gy_flows] sends GY
    (CHARGING), whatever the arguments. Served by the Rule Store, such a
    request leaves every record of the other origin unchanged, also for
    the same subscriber. *)
Theorem deactivation_scoped_to_origin lib client args sid w :
  SIDUtils_to_pb lib (imsi args) = returned sid ->
  exists request_gx request_gy,
    rpcs (deactivate_flows lib client args w).2
    = rpcs w ++ [RpcDeactivateFlows request_gx]
    /\ DeactivateFlowsRequest.request_origin request_gx = GX
    /\ rpcs (deactivate_gy_flows lib client args w).2
       = rpcs w ++ [RpcDeactivateFlows request_gy]
    /\ DeactivateFlowsRequest.request_origin request_gy = GY
    /\ forall (store : gmap Controller.RuleKey PolicyRule.t) subscriber
              rule_id,
         Controller.HandleDeactivateFlows request_gx store
           !! (subscriber, rule_id, GY)
         = store !! (subscriber, rule_id, GY)
         /\ Controller.HandleDeactivateFlows request_gy store
              !! (subscriber, rule_id, GX)
            = store !! (subscriber, rule_id, GX).
Proof.
  intros Hsid.
  destruct (deactivation_rpcs lib client args sid w Hsid) as [Hgx Hgy].
  eexists _, _. split; [exact Hgx|]. split; [reflexivity|].
  split; [exact Hgy|]. split; [reflexivity|].
  intros store subscriber rule_id.
  split; apply HandleDeactivateFlows_other_origin; discriminate.
Qed.

Lemma deactivation_scoped_to_origin_witness :
  let lib := sample_lib (returned []) in
  SIDUtils_to_pb lib (imsi default_args) = returned "IMSI12345"
  /\ exists request_gx request_gy,
       rpcs (deactivate_flows lib sample_stub default_args empty_world).2
       = rpcs empty_world ++ [RpcDeactivateFlows request_gx]
       /\ DeactivateFlowsRequest.request_origin request_gx = GX
       /\ rpcs (deactivate_gy_flows lib sample_stub default_args
                  empty_world).2
          = rpcs empty_world ++ [RpcDeactivateFlows request_gy]
       /\ DeactivateFlowsRequest.request_origin request_gy = GY
       /\ forall (store : gmap Controller.RuleKey PolicyRule.t) subscriber
                 rule_id,
            Controller.HandleDeactivateFlows request_gx store
              !! (subscriber, rule_id, GY)
            = store !! (subscriber, rule_id, GY)
            /\ Controller.HandleDeactivateFlows request_gy store
                 !! (subscriber, rule_id, GX)
               = store !! (subscriber, rule_id, GX).
Proof.
  intros lib. split; [reflexivity|].
  apply (deactivation_scoped_to_origin lib sample_stub default_args
           "IMSI12345" empty_world).
  reflexivity.
Defined.

(** ** Quota updates *)

Lemma update_quota_rpcs lib client args sid w :
  SIDUtils_to_pb lib (imsi args) = returned sid ->
  SubscriberQuotaUpdate_validate lib (update_type args) = returned tt ->
  rpcs (update_quota lib client args w).2
  = rpcs w ++ [RpcUpdateSubscriberQuotaState
                 (UpdateSubscriberQuotaStateRequest.mk
                    [SubscriberQuotaUpdate.mk sid (mac args)
                       (update_type args)])].
Proof.
  intros Hsid Hfit. unfold update_quota.
  rewrite (bind_returned _ _ w sid w) by (unfold call; now rewrite Hsid).
  rewrite (bind_returned _ _ w tt w) by (unfold call; now rewrite Hfit).
  unfold bind, rpc.
  destruct (UpdateSubscriberQuotaState client _) as [e|[u|]]; reflexivity.
Qed.

Lemma quota_state_of_some update_type :
  is_Some (Controller.quota_state_of update_type)
  <-> update_type ∈ [0%Z; 1%Z; 2%Z].
Proof.
  unfold Controller.quota_state_of.
  destruct (Z.eqb_spec update_type 0) as [->|H0];
    [split; [intros _; set_solver|eauto]|].
  destruct (Z.eqb_spec update_type 1) as [->|H1];
    [split; [intros _; set_solver|eauto]|].
  destruct (Z.eqb_spec update_type 2) as [->|H2];
    [split; [intros _; set_solver|eauto]|].
  split; [intros [x Hx]; discriminate|].
  rewrite !elem_of_cons, elem_of_nil. intros [?|[?|[?|[]]]]; contradiction.
Qed.

Lemma quota_state_of_terminate update_type :
  Controller.quota_state_of update_type = Some Controller.TERMINATE
  <-> update_type = 2%Z.
Proof.
  unfold Controller.quota_state_of.
  destruct (Z.eqb_spec update_type 0) as [->|H0];
    [split; discriminate|].
  destruct (Z.eqb_spec update_type 1) as [->|H1];
    [split; discriminate|].
  destruct (Z.eqb_spec update_type 2) as [->|H2];
    [split; reflexivity|].
  split; [discriminate|contradiction].
Qed.

(** C7, as stated, fails: the parser accepts any integer, and with
    [update_type] 3 the request carries an update type outside
    0, 1, 2. *)
Lemma update_quota_forwards_update_type_3 :
  let lib := sample_lib (returned []) in
  ~ (forall request update,
       RpcUpdateSubscriberQuotaState request
         ∈ rpcs (update_quota lib sample_stub
                   (with_update_type 3 default_args) empty_world).2 ->
       update ∈ UpdateSubscriberQuotaStateRequest.updates request ->
       SubscriberQuotaUpdate.update_type update ∈ [0%Z; 1%Z; 2%Z]).
Proof.
  intros lib H.
  specialize (H (UpdateSubscriberQuotaStateRequest.mk
                   [SubscriberQuotaUpdate.mk "IMSI12345"
                      "5e:cc:cc:b1:49:ff" 3])
                (SubscriberQuotaUpdate.mk "IMSI12345"
                   "5e:cc:cc:b1:49:ff" 3)).
  simpl in H.
  assert (Hin : (3 ∈ [0; 1; 2])%Z)
    by (apply H; apply list_elem_of_singleton; reflexivity).
  rewrite !elem_of_cons, elem_of_nil in Hin.
  destruct Hin as [?|[?|[?|[]]]]; discriminate.
Qed.

(** C7, amended. The script does not check that [update_type] is one of
    the documented 0 (valid quota), 1 (quota exhausted), 2 (terminate):
    whenever the [SubscriberQuotaUpdate] constructor accepts the caller's
    integer, [update_quota] sends one update that carries it unchanged.
    When it is one of the three, an update of type 2 makes the quota gate
    remove the subscriber's gating rule, and an update of type 0 or 1
    leaves the subscriber with a gating rule whose content is the new
    state. *)
Theorem update_quota_request lib client args sid w :
  SIDUtils_to_pb lib (imsi args) = returned sid ->
  SubscriberQuotaUpdate_validate lib (update_type args) = returned tt ->
  exists update,
    rpcs (update_quota lib client args w).2
    = rpcs w ++ [RpcUpdateSubscriberQuotaState
                   (UpdateSubscriberQuotaStateRequest.mk [update])]
    /\ SubscriberQuotaUpdate.sid update = sid
    /\ SubscriberQuotaUpdate.mac_addr update = mac args
    /\ SubscriberQuotaUpdate.update_type update = update_type args
    /\ (is_Some (Controller.quota_state_of
                   (SubscriberQuotaUpdate.update_type update))
        <-> update_type args ∈ [0%Z; 1%Z; 2%Z])
    /\ forall state (gates : gmap SubscriberID Controller.GatingRule),
         Controller.quota_state_of
           (SubscriberQuotaUpdate.update_type update) = Some state ->
         Controller.UpdateQuotaState sid (mac args) state gates !! sid
         = if Z.eqb (update_type args) 2 then None
           else Some (Controller.mkGatingRule (mac args) state).
Proof.
  intros Hsid Hfit. eexists.
  split; [exact (update_quota_rpcs lib client args sid w Hsid Hfit)|].
  do 3 (split; [reflexivity|]). simpl.
  split; [apply quota_state_of_some|].
  intros state gates Hstate.
  destruct (Z.eqb_spec (update_type args) 2) as [E|E].
  - apply quota_state_of_terminate in E.
    assert (state = Controller.TERMINATE) as -> by congruence.
    apply lookup_delete_eq.
  - destruct state; simpl.
    + apply lookup_insert_eq.
    + apply lookup_insert_eq.
    + apply quota_state_of_terminate in Hstate. contradiction.
Qed.

Lemma update_quota_request_witness :
  let lib := sample_lib (returned []) in
  let args := with_update_type 2 default_args in
  SIDUtils_to_pb lib (imsi args) = returned "IMSI12345"
  /\ SubscriberQuotaUpdate_validate lib (update_type args) = returned tt
  /\ exists update,
       rpcs (update_quota lib sample_stub args empty_world).2
       = rpcs empty_world
         ++ [RpcUpdateSubscriberQuotaState
               (UpdateSubscriberQuotaStateRequest.mk [update])]
       /\ SubscriberQuotaUpdate.sid update = "IMSI12345"
       /\ SubscriberQuotaUpdate.mac_addr update = mac args
       /\ SubscriberQuotaUpdate.update_type update = update_type args
       /\ (is_Some (Controller.quota_state_of
                      (SubscriberQuotaUpdate.update_type update))
           <-> update_type args ∈ [0%Z; 1%Z; 2%Z])
       /\ forall state (gates : gmap SubscriberID Controller.GatingRule),
            Controller.quota_state_of
              (SubscriberQuotaUpdate.update_type update) = Some state ->
            Controller.UpdateQuotaState "IMSI12345" (mac args) state gates
              !! "IMSI12345"
            = if Z.eqb (update_type args) 2 then None
              else Some (Controller.mkGatingRule (mac args) state).
Proof.
  intros lib args. do 2 (split; [reflexivity|]).
  apply (update_quota_request lib sample_stub args "IMSI12345" empty_world);
    reflexivity.
Defined.

(** ** The table-assignment listing *)









(** The listing of the sample gateway filtered to two applications, as
    printed. *)
Example get_table_assignment_sample_output :
  get_table_assignment sample_stub
    (with_apps (Some "enforcement,ue_mac") default_args) empty_world
  = (returned tt,
     mkWorld
       ["App                      Main Table          Scratch Tables           ";
        "----------------------------------------------------------------------";
        "ue_mac                   1                   []                       ";
        "enforcement              13                  [21]                     "]
       [RpcGetAllTableAssignments]).
Proof. vm_compute. reflexivity. Qed.

(** ** Flow dumps *)

Section FlowDumps.

Variables (lib : Imports) (client : PipelinedStub).
Variables (config : gmap string string) (bridge : string).
Hypothesis Hconfig : load_service_config lib "pipelined" = returned config.
Hypothesis Hbridge : config !! "bridge_name" = Some bridge.

(** A dump that returns: its flows are printed, one per line. *)
Lemma dump_returned (dump : Exc (list string)) flows w :
  dump = returned flows ->
  try_except (call dump) dump_failed (fun l => for_ l print) w
  = (returned tt, mkWorld (stdout w ++ flows) (rpcs w)).
Proof.
  intros ->. unfold try_except, call; simpl.
  pose proof (for_print (fun x => x) flows w) as H.
  rewrite map_id in H. exact H.
Qed.

(** A dump that fails: [EPERM] is reported, another return code is
    swallowed, another exception is not caught. *)
Lemma dump_raised (dump : Exc (list string)) e w :
  dump = raised e ->
  try_except (call dump) dump_failed (fun l => for_ l print) w
  = match e with
    | CalledProcessError returncode =>
        (returned tt,
         if Z.eqb returncode EPERM
         then mkWorld (stdout w ++ ["Need to run as root to dump flows"])
                      (rpcs w)
         else w)
    | OtherException _ => (raised e, w)
    end.
Proof.
  intros ->. unfold try_except, call; simpl.
  destruct e as [returncode|name]; simpl; [|reflexivity].
  destruct (Z.eqb returncode EPERM); reflexivity.
Qed.

Lemma display_raw_flows_run args w :
  display_raw_flows lib client args w
  = try_except
      (call (BridgeTools_get_flows_for_bridge lib bridge (table_num args)))
      dump_failed (fun l => for_ l print) w.
Proof.
  unfold display_raw_flows.
  rewrite (bind_returned _ _ w config w)
    by (unfold call; now rewrite Hconfig).
  rewrite (bind_returned _ _ w bridge w)
    by (unfold getitem; now rewrite Hbridge).
  reflexivity.
Qed.

Lemma _display_flows_run response apps w :
  GetAllTableAssignments client tt = returned response ->
  _display_flows lib client apps w
  = try_except
      (call (BridgeTools_get_annotated_flows_for_bridge lib bridge
               (tables_by_app
                  (AllTableAssignments.table_assignments response))
               apps))
      dump_failed (fun l => for_ l print)
      (mkWorld (stdout w) (rpcs w ++ [RpcGetAllTableAssignments])).
Proof.
  intros Hresp. unfold _display_flows.
  rewrite (bind_returned _ _ w config w)
    by (unfold call; now rewrite Hconfig).
  rewrite (bind_returned _ _ w bridge w)
    by (unfold getitem; now rewrite Hbridge).
  rewrite (bind_returned _ _ w response
             (mkWorld (stdout w) (rpcs w ++ [RpcGetAllTableAssignments])))
    by (unfold rpc; now rewrite Hresp).
  reflexivity.
Qed.

End FlowDumps.

Lemma display_flows_filter lib client args :
  display_flows lib client args
  = _display_flows lib client (Py.split "," <$> apps args).
Proof. unfold display_flows. destruct (apps args); reflexivity. Qed.

(** C5. When the flow dump fails with return code [EPERM],
    [display_raw_flows] and [display_flows] return after printing
    [Need to run as root to dump flows]; what they print differs from
    what they print when the dump succeeds with no flows, which is
    nothing. *)
Theorem privilege_failure_is_reported
    lib lib_empty client args config bridge response w :
  load_service_config lib "pipelined" = returned config ->
  load_service_config lib_empty "pipelined" = returned config ->
  config !! "bridge_name" = Some bridge ->
  GetAllTableAssignments client tt = returned response ->
  BridgeTools_get_flows_for_bridge lib bridge (table_num args)
  = raised (CalledProcessError EPERM) ->
  BridgeTools_get_annotated_flows_for_bridge lib bridge
    (tables_by_app (AllTableAssignments.table_assignments response))
    (Py.split "," <$> apps args)
  = raised (CalledProcessError EPERM) ->
  BridgeTools_get_flows_for_bridge lib_empty bridge (table_num args)
  = returned [] ->
  BridgeTools_get_annotated_flows_for_bridge lib_empty bridge
    (tables_by_app (AllTableAssignments.table_assignments response))
    (Py.split "," <$> apps args)
  = returned [] ->
  display_raw_flows lib client args w
  = (returned tt,
     mkWorld (stdout w ++ ["Need to run as root to dump flows"]) (rpcs w))
  /\ display_flows lib client args w
     = (returned tt,
        mkWorld (stdout w ++ ["Need to run as root to dump flows"])
                (rpcs w ++ [RpcGetAllTableAssignments]))
  /\ stdout (display_raw_flows lib_empty client args w).2 = stdout w
  /\ stdout (display_flows lib_empty client args w).2 = stdout w
  /\ stdout (display_raw_flows lib client args w).2
     <> stdout (display_raw_flows lib_empty client args w).2
  /\ stdout (display_flows lib client args w).2
     <> stdout (display_flows lib_empty client args w).2.
Proof.
  intros Hc Hc' Hb Hresp Hraw Hann Hraw' Hann'.
  rewrite !display_flows_filter.
  rewrite (display_raw_flows_run lib client config bridge Hc Hb).
  rewrite (display_raw_flows_run lib_empty client config bridge Hc' Hb).
  rewrite (_display_flows_run lib client config bridge Hc Hb response)
    by exact Hresp.
  rewrite (_display_flows_run lib_empty client config bridge Hc' Hb response)
    by exact Hresp.
  rewrite (dump_raised _ _ _ Hraw), (dump_raised _ _ _ Hann).
  rewrite (dump_returned _ _ _ Hraw'), (dump_returned _ _ _ Hann').
  simpl. rewrite app_nil_r.
  repeat split; intros H; apply (f_equal List.length) in H;
    rewrite length_app in H; simpl in H; lia.
Qed.

Lemma privilege_failure_is_reported_witness :
  let lib := sample_lib (raised (CalledProcessError EPERM)) in
  let lib_empty := sample_lib (returned []) in
  let config : gmap string string := {["bridge_name" := "gtp_br0"]} in
  let response := AllTableAssignments.mk sample_tables in
  let args := default_args in
  load_service_config lib "pipelined" = returned config
  /\ load_service_config lib_empty "pipelined" = returned config
  /\ config !! "bridge_name" = Some "gtp_br0"
  /\ GetAllTableAssignments sample_stub tt = returned response
  /\ BridgeTools_get_flows_for_bridge lib "gtp_br0" (table_num args)
     = raised (CalledProcessError EPERM)
  /\ BridgeTools_get_annotated_flows_for_bridge lib "gtp_br0"
       (tables_by_app (AllTableAssignments.table_assignments response))
       (Py.split "," <$> apps args)
     = raised (CalledProcessError EPERM)
  /\ BridgeTools_get_flows_for_bridge lib_empty "gtp_br0" (table_num args)
     = returned []
  /\ BridgeTools_get_annotated_flows_for_bridge lib_empty "gtp_br0"
       (tables_by_app (AllTableAssignments.table_assignments response))
       (Py.split "," <$> apps args)
     = returned []
  /\ (display_raw_flows lib sample_stub args empty_world
      = (returned tt,
         mkWorld (stdout empty_world
                  ++ ["Need to run as root to dump flows"])
                 (rpcs empty_world))
      /\ display_flows lib sample_stub args empty_world
         = (returned tt,
            mkWorld (stdout empty_world
                     ++ ["Need to run as root to dump flows"])
                    (rpcs empty_world ++ [RpcGetAllTableAssignments]))
      /\ stdout (display_raw_flows lib_empty sample_stub args
                   empty_world).2
         = stdout empty_world
      /\ stdout (display_flows lib_empty sample_stub args empty_world).2
         = stdout empty_world
      /\ stdout (display_raw_flows lib sample_stub args empty_world).2
         <> stdout (display_raw_flows lib_empty sample_stub args
                      empty_world).2
      /\ stdout (display_flows lib sample_stub args empty_world).2
         <> stdout (display_flows lib_empty sample_stub args
                      empty_world).2).
Proof.
  intros lib lib_empty config response args.
  do 8 (split; [reflexivity|]).
  apply (privilege_failure_is_reported lib lib_empty sample_stub args
           config "gtp_br0" response empty_world); reflexivity.
Defined.

(** C10. When the flow dump raises [CalledProcessError] with a return
    code other than [EPERM], [display_raw_flows] and [display_flows]
    return without printing, exactly as they do when the dump succeeds
    with no flows; with [EPERM] they print the message; an exception of
    another class leaves the command. *)
Theorem dump_failure_outcomes
    lib lib_empty client args config bridge response e w :
  load_service_config lib "pipelined" = returned config ->
  load_service_config lib_empty "pipelined" = returned config ->
  config !! "bridge_name" = Some bridge ->
  GetAllTableAssignments client tt = returned response ->
  BridgeTools_get_flows_for_bridge lib bridge (table_num args) = raised e ->
  BridgeTools_get_annotated_flows_for_bridge lib bridge
    (tables_by_app (AllTableAssignments.table_assignments response))
    (Py.split "," <$> apps args)
  = raised e ->
  BridgeTools_get_flows_for_bridge lib_empty bridge (table_num args)
  = returned [] ->
  BridgeTools_get_annotated_flows_for_bridge lib_empty bridge
    (tables_by_app (AllTableAssignments.table_assignments response))
    (Py.split "," <$> apps args)
  = returned [] ->
  match e with
  | CalledProcessError returncode =>
      if Z.eqb returncode EPERM
      then stdout (display_raw_flows lib client args w).2
           = stdout w ++ ["Need to run as root to dump flows"]
           /\ stdout (display_flows lib client args w).2
              = stdout w ++ ["Need to run as root to dump flows"]
      else display_raw_flows lib client args w = (returned tt, w)
           /\ display_raw_flows lib client args w
              = display_raw_flows lib_empty client args w
           /\ display_flows lib client args w
              = (returned tt,
                 mkWorld (stdout w)
                         (rpcs w ++ [RpcGetAllTableAssignments]))
           /\ display_flows lib client args w
              = display_flows lib_empty client args w
  | OtherException _ =>
      (display_raw_flows lib client args w).1 = raised e
      /\ stdout (display_raw_flows lib client args w).2 = stdout w
      /\ (display_flows lib client args w).1 = raised e
      /\ stdout (display_flows lib client args w).2 = stdout w
  end.
Proof.
  intros Hc Hc' Hb Hresp Hraw Hann Hraw' Hann'.
  rewrite !display_flows_filter.
  rewrite !(display_raw_flows_run lib client config bridge Hc Hb).
  rewrite !(display_raw_flows_run lib_empty client config bridge Hc' Hb).
  rewrite !(_display_flows_run lib client config bridge Hc Hb response)
    by exact Hresp.
  rewrite !(_display_flows_run lib_empty client config bridge Hc' Hb
              response) by exact Hresp.
  rewrite !(dump_raised _ _ _ Hraw), !(dump_raised _ _ _ Hann).
  rewrite !(dump_returned _ _ _ Hraw'), !(dump_returned _ _ _ Hann').
  destruct e as [returncode|name]; [|repeat split].
  destruct (Z.eqb returncode EPERM); simpl; [split; reflexivity|].
  rewrite app_nil_r. destruct w; repeat split.
Qed.

Lemma dump_failure_outcomes_witness :
  let lib := sample_lib (raised (CalledProcessError 2)) in
  let lib_empty := sample_lib (returned []) in
  let config : gmap string string := {["bridge_name" := "gtp_br0"]} in
  let response := AllTableAssignments.mk sample_tables in
  let args := default_args in
  load_service_config lib "pipelined" = returned config
  /\ load_service_config lib_empty "pipelined" = returned config
  /\ config !! "bridge_name" = Some "gtp_br0"
  /\ GetAllTableAssignments sample_stub tt = returned response
  /\ BridgeTools_get_flows_for_bridge lib "gtp_br0" (table_num args)
     = raised (CalledProcessError 2)
  /\ BridgeTools_get_annotated_flows_for_bridge lib "gtp_br0"
       (tables_by_app (AllTableAssignments.table_assignments response))
       (Py.split "," <$> apps args)
     = raised (CalledProcessError 2)
  /\ BridgeTools_get_flows_for_bridge lib_empty "gtp_br0" (table_num args)
     = returned []
  /\ BridgeTools_get_annotated_flows_for_bridge lib_empty "gtp_br0"
       (tables_by_app (AllTableAssignments.table_assignments response))
       (Py.split "," <$> apps args)
     = returned []
  /\ (display_raw_flows lib sample_stub args empty_world
      = (returned tt, empty_world)
      /\ display_raw_flows lib sample_stub args empty_world
         = display_raw_flows lib_empty sample_stub args empty_world
      /\ display_flows lib sample_stub args empty_world
         = (returned tt,
            mkWorld (stdout empty_world)
                    (rpcs empty_world ++ [RpcGetAllTableAssignments]))
      /\ display_flows lib sample_stub args empty_world
         = display_flows lib_empty sample_stub args empty_world).
Proof.
  intros lib lib_empty config response args.
  do 8 (split; [reflexivity|]).
  apply (dump_failure_outcomes lib lib_empty sample_stub args
           config "gtp_br0" response (CalledProcessError 2) empty_world);
    reflexivity.
Defined.

(** The other two outcomes on the sample gateway: [EPERM] is reported,
    an [OSError] leaves the command. *)
Example display_raw_flows_denied :
  display_raw_flows (sample_lib (raised (CalledProcessError EPERM)))
    sample_stub default_args empty_world
  = (returned tt, mkWorld ["Need to run as root to dump flows"] []).
Proof. reflexivity. Qed.

Example display_flows_oserror :
  display_flows (sample_lib (raised (OtherException "OSError")))
    sample_stub default_args empty_world
  = (raised (OtherException "OSError"),
     mkWorld [] [RpcGetAllTableAssignments]).
Proof. reflexivity. Qed.

(** ** The table space *)

Section TableSpace.

Import Controller.

Implicit Types (assigned : gmap string TableAssignment.t).

Lemma overlap_true l1 l2 :
  overlap l1 l2 = true <-> exists n, n ∈ l1 /\ n ∈ l2.
Proof.
  unfold overlap. rewrite existsb_exists. split.
  - intros (n & Hin & Hn). exists n. split.
    + now apply list_elem_of_In.
    + now apply bool_decide_eq_true in Hn.
  - intros (n & H1 & H2). exists n. split.
    + now apply list_elem_of_In.
    + now apply bool_decide_eq_true.
Qed.

Lemma collides_true a assigned :
  collides a assigned = true
  <-> exists b tb, assigned !! b = Some tb
                   /\ b <> TableAssignment.app_name a
                   /\ overlap (tables_of a) (tables_of tb) = true.
Proof.
  unfold collides. rewrite existsb_exists. split.
  - intros ([b tb] & Hin & Hc). simpl in Hc.
    apply andb_true_iff in Hc as [Hne Ho].
    apply bool_decide_eq_true in Hne.
    exists b, tb. split; [|now split].
    apply elem_of_map_to_list. now apply list_elem_of_In.
  - intros (b & tb & Hb & Hne & Ho). exists (b, tb). split.
    + apply list_elem_of_In. now apply elem_of_map_to_list.
    + simpl. apply andb_true_iff. split; [|exact Ho].
      now apply bool_decide_eq_true.
Qed.

Lemma register_inr layout app_name assigned a assigned' :
  register layout app_name assigned = inr (a, assigned') ->
  a = assignment_of layout app_name
  /\ assigned' = <[app_name := a]> assigned
  /\ collides a assigned = false.
Proof.
  unfold register.
  destruct (collides (assignment_of layout app_name) assigned) eqn:E;
    [discriminate|].
  intros [= <- <-]. now repeat split.
Qed.

(** A successful registration keeps the table space disjoint. *)
Lemma register_preserves layout app_name assigned a assigned' :
  pairwise_disjoint assigned ->
  register layout app_name assigned = inr (a, assigned') ->
  pairwise_disjoint assigned'.
Proof.
  intros Hdis Hreg.
  apply register_inr in Hreg as (Ha & -> & Hfree).
  assert (Hname : TableAssignment.app_name a = app_name) by now subst a.
  assert (Hclear : forall b tb n,
             assigned !! b = Some tb -> b <> app_name ->
             n ∈ tables_of a -> n ∉ tables_of tb).
  { intros b tb n Hb Hne Hna Hnb.
    assert (collides a assigned = true) as Hc; [|congruence].
    apply collides_true. exists b, tb. split; [exact Hb|].
    split; [now rewrite Hname|].
    apply overlap_true. now exists n. }
  intros x y tx ty n Hx Hy Hxy Hn.
  destruct (decide (x = app_name)) as [->|Hxa];
    destruct (decide (y = app_name)) as [->|Hya].
  - now destruct Hxy.
  - rewrite lookup_insert_eq in Hx. rewrite lookup_insert_ne in Hy by done.
    injection Hx as <-. now apply (Hclear y ty n).
  - rewrite lookup_insert_ne in Hx by done. rewrite lookup_insert_eq in Hy.
    injection Hy as <-. intros Hna. now apply (Hclear x tx n Hx Hxa Hna).
  - rewrite lookup_insert_ne in Hx by done.
    rewrite lookup_insert_ne in Hy by done.
    now apply (Hdis x y tx ty n).
Qed.

Lemma reachable_disjoint layout assigned :
  reachable layout assigned -> pairwise_disjoint assigned.
Proof.
  induction 1 as [|app_name assigned a assigned' _ IH Hreg].
  - intros a b ta tb n Ha. now rewrite lookup_empty in Ha.
  - exact (register_preserves _ _ _ _ _ IH Hreg).
Qed.

Lemma startup_from_outcome layout apps assigned :
  reachable layout assigned ->
  follows_layout layout assigned ->
  match startup_from layout apps assigned with
  | inr final =>
      reachable layout final
      /\ follows_layout layout final
      /\ forall k, is_Some (final !! k)
                   <-> k ∈ apps \/ is_Some (assigned !! k)
  | inl _ =>
      exists a b,
        a ∈ apps /\ (b ∈ apps \/ is_Some (assigned !! b)) /\ a <> b
        /\ overlap (tables_of (assignment_of layout a))
                   (tables_of (assignment_of layout b)) = true
  end.
Proof.
  revert assigned. induction apps as [|app rest IH]; intros assigned Hr Hl.
  - simpl. split; [exact Hr|]. split; [exact Hl|].
    intros k. rewrite elem_of_nil. tauto.
  - simpl. destruct (register layout app assigned) as [[]|[a assigned']] eqn:E.
    + unfold register in E.
      destruct (collides (assignment_of layout app) assigned) eqn:Ec;
        [|discriminate].
      apply collides_true in Ec as (b & tb & Hb & Hne & Ho).
      exists app, b. split; [now left|].
      split; [right; now exists tb|].
      split; [simpl in Hne; congruence|].
      now rewrite <- (Hl b tb Hb).
    + pose proof (reach_register layout app assigned a assigned' Hr E) as Hr'.
      pose proof (register_inr _ _ _ _ _ E) as (Ha & Hassigned' & _).
      assert (Hl' : follows_layout layout assigned').
      { intros k ta. rewrite Hassigned'.
        destruct (decide (k = app)) as [->|Hk].
        - rewrite lookup_insert_eq. congruence.
        - rewrite lookup_insert_ne by done. apply Hl. }
      specialize (IH assigned' Hr' Hl').
      assert (Hdom : forall k, is_Some (assigned' !! k)
                               <-> k = app \/ is_Some (assigned !! k)).
      { intros k. rewrite Hassigned'.
        destruct (decide (k = app)) as [->|Hk].
        - rewrite lookup_insert_eq. split; [now left|eauto].
        - rewrite lookup_insert_ne by done. split; [now right|].
          intros [?|?]; [contradiction|assumption]. }
      destruct (startup_from layout rest assigned') as [e|final].
      * destruct IH as (x & y & Hx & Hy & Hxy & Ho).
        exists x, y. split; [now right|]. split; [|now split].
        rewrite elem_of_cons. rewrite Hdom in Hy. tauto.
      * destruct IH as (Hrf & Hlf & Hkf).
        split; [exact Hrf|]. split; [exact Hlf|].
        intros k. rewrite Hkf, Hdom, elem_of_cons. tauto.
Qed.

End TableSpace.

(** C6. The main and scratch table numbers of the registered
    applications are pairwise disjoint in every state the allocator can
    be in: no two applications hold a table number in common. The
    assignment map is built at process start; start fails with the fatal
    [TableSpaceConflict] exactly when two of the applications are laid
    out on a common table number, and otherwise yields a disjoint
    assignment of the layout's tables to every application. *)
Theorem table_assignments_pairwise_disjoint layout apps :
  (forall assigned,
     Controller.reachable layout assigned ->
     Controller.pairwise_disjoint assigned)
  /\ (Controller.startup layout apps = inl Controller.TableSpaceConflict
      <-> exists a b,
            a ∈ apps /\ b ∈ apps /\ a <> b
            /\ Controller.overlap
                 (Controller.tables_of (Controller.assignment_of layout a))
                 (Controller.tables_of (Controller.assignment_of layout b))
               = true)
  /\ (forall assigned,
        Controller.startup layout apps = inr assigned ->
        Controller.reachable layout assigned
        /\ Controller.pairwise_disjoint assigned
        /\ (forall a, a ∈ apps
                      <-> assigned !! a
                          = Some (Controller.assignment_of layout a))).
Proof.
  pose proof (startup_from_outcome layout apps ∅
                (Controller.reach_empty layout)) as Hout.
  assert (Hempty : Controller.follows_layout layout ∅)
    by (intros k ta Hk; now rewrite lookup_empty in Hk).
  specialize (Hout Hempty). fold (Controller.startup layout apps) in Hout.
  split; [exact (reachable_disjoint layout)|].
  destruct (Controller.startup layout apps) as [[]|final].
  - destruct Hout as (a & b & Ha & Hb & Hab & Ho).
    split; [|intros assigned [=]].
    split; [intros _|reflexivity].
    exists a, b. split; [exact Ha|]. split; [|now split].
    destruct Hb as [Hb|[x Hx]]; [exact Hb|now rewrite lookup_empty in Hx].
  - destruct Hout as (Hr & Hl & Hdom).
    assert (Hreg : forall a, a ∈ apps
                             <-> final !! a
                                 = Some (Controller.assignment_of layout a)).
    { intros a. split.
      - intros Ha. destruct (proj2 (Hdom a) (or_introl Ha)) as [ta Hta].
        now rewrite Hta, (Hl a ta Hta).
      - intros Ha. destruct (proj1 (Hdom a) (ex_intro _ _ Ha)) as [H|[x Hx]];
          [exact H|now rewrite lookup_empty in Hx]. }
    split.
    + split; [discriminate|].
      intros (a & b & Ha & Hb & Hab & Ho). exfalso.
      apply overlap_true in Ho as (n & Hna & Hnb).
      apply Hreg in Ha, Hb.
      exact (reachable_disjoint layout final Hr a b _ _ n Ha Hb Hab Hna Hnb).
    + intros assigned [= <-]. split; [exact Hr|].
      split; [exact (reachable_disjoint layout final Hr)|exact Hreg].
Qed.

(** Two starts of the sample gateway: one layout is disjoint, the other
    gives [enforcement] and [enforcement_stats] scratch table 21. *)
Example startup_colliding_layout :
  Controller.startup colliding_layout
    ["ue_mac"; "enforcement"; "enforcement_stats"]
  = inl Controller.TableSpaceConflict.
Proof. vm_compute. reflexivity. Qed.

Example startup_sample_layout :
  match Controller.startup sample_layout
          ["ue_mac"; "enforcement"; "enforcement_stats"] with
  | inr assigned =>
      assigned !! "ue_mac" = Some (TableAssignment.mk "ue_mac" 1%N [])
      /\ assigned !! "enforcement"
         = Some (TableAssignment.mk "enforcement" 13%N [21%N])
      /\ assigned !! "enforcement_stats"
         = Some (TableAssignment.mk "enforcement_stats" 14%N [22%N; 23%N])
      /\ List.length (Controller.assignments assigned) = 3
  | inl _ => False
  end.
Proof. vm_compute. repeat split. Qed.

(** * Further properties of the commands *)

(** ** Printing rule results *)

(** Results whose codes all have names are printed, one line each, and the
    loop goes on with the results that follow. *)
Lemma print_results_prefix lib pre names rest w :
  Forall2 (fun r n =>
             RuleModResult_Result_Name lib (RuleModResult.result r)
             = returned n) pre names ->
  _print_rule_mod_results lib (pre ++ rest) w
  = _print_rule_mod_results lib rest
      (mkWorld (stdout w ++ zip_with result_line pre names) (rpcs w)).
Proof.
  intros Hnames. revert w.
  induction Hnames as [|r n pre names Hn _ IH]; intros w.
  - simpl. rewrite app_nil_r. now destruct w.
  - unfold _print_rule_mod_results in *. simpl.
    unfold bind at 1. unfold bind at 1. unfold call. rewrite Hn.
    unfold print at 1. simpl. rewrite IH. simpl.
    now rewrite <- app_assoc.
Qed.

(** X1. When every result code has a name, [_print_rule_mod_results]
    prints one line per result, the rule id and the name separated by a
    space, in the order of the results, and issues no RPC. *)
Theorem print_rule_mod_results_all_named lib results names w :
  Forall2 (fun r n =>
             RuleModResult_Result_Name lib (RuleModResult.result r)
             = returned n) results names ->
  _print_rule_mod_results lib results w
  = (returned tt,
     mkWorld (stdout w ++ zip_with result_line results names) (rpcs w)).
Proof.
  intros Hnames.
  pose proof (print_results_prefix lib results names [] w Hnames) as H.
  rewrite app_nil_r in H. exact H.
Qed.

Lemma print_rule_mod_results_all_named_witness :
  let lib := lib_of (returned "IMSI12345") (returned "") (returned ∅)
               (returned []) in
  let results := [RuleModResult.mk "rule1" 0; RuleModResult.mk "rule2" 2] in
  let names := ["SUCCESS"; "FAILURE"] in
  Forall2 (fun r n =>
             RuleModResult_Result_Name lib (RuleModResult.result r)
             = returned n) results names
  /\ _print_rule_mod_results lib results empty_world
     = (returned tt,
        mkWorld (stdout empty_world ++ zip_with result_line results names)
                (rpcs empty_world)).
Proof.
  intros lib results names.
  assert (H : Forall2 (fun r n =>
                RuleModResult_Result_Name lib (RuleModResult.result r)
                = returned n) results names)
    by (repeat constructor).
  split; [exact H|].
  exact (print_rule_mod_results_all_named lib results names empty_world H).
Defined.

(** X2. [_print_rule_mod_results] stops at the first result whose code
    has no name: the exception of the name lookup leaves the loop, the
    lines of the results before it have been printed, and no later result
    is printed. *)
Theorem print_rule_mod_results_stops_at_unnamed
    lib pre names result post e w :
  Forall2 (fun r n =>
             RuleModResult_Result_Name lib (RuleModResult.result r)
             = returned n) pre names ->
  RuleModResult_Result_Name lib (RuleModResult.result result) = raised e ->
  _print_rule_mod_results lib (pre ++ result :: post) w
  = (raised e,
     mkWorld (stdout w ++ zip_with result_line pre names) (rpcs w)).
Proof.
  intros Hnames He.
  rewrite (print_results_prefix lib pre names (result :: post) w Hnames).
  unfold _print_rule_mod_results. simpl.
  unfold bind at 1. unfold bind at 1. unfold call. now rewrite He.
Qed.

Lemma print_rule_mod_results_stops_at_unnamed_witness :
  let lib := lib_of (returned "IMSI12345") (returned "") (returned ∅)
               (returned []) in
  let pre := [RuleModResult.mk "rule1" 0] in
  let result := RuleModResult.mk "rule2" 7 in
  let post := [RuleModResult.mk "rule3" 0] in
  Forall2 (fun r n =>
             RuleModResult_Result_Name lib (RuleModResult.result r)
             = returned n) pre ["SUCCESS"]
  /\ RuleModResult_Result_Name lib (RuleModResult.result result)
     = raised (OtherException "ValueError")
  /\ _print_rule_mod_results lib (pre ++ result :: post) empty_world
     = (raised (OtherException "ValueError"),
        mkWorld (stdout empty_world ++ zip_with result_line pre ["SUCCESS"])
                (rpcs empty_world)).
Proof.
  intros lib pre result post.
  assert (H : Forall2 (fun r n =>
                RuleModResult_Result_Name lib (RuleModResult.result r)
                = returned n) pre ["SUCCESS"])
    by (repeat constructor).
  split; [exact H|]. split; [reflexivity|].
  exact (print_rule_mod_results_stops_at_unnamed lib pre ["SUCCESS"] result
           post (OtherException "ValueError") empty_world H eq_refl).
Defined.

(** ** Failures before and in the RPC *)

(** X3. When the subscriber id cannot be encoded, each of the six
    commands that encode one ends with that exception, having printed
    nothing and issued no RPC. *)
Theorem unencodable_subscriber_sends_nothing lib client args e w :
  SIDUtils_to_pb lib (imsi args) = raised e ->
  activate_flows lib client args w = (raised e, w)
  /\ deactivate_flows lib client args w = (raised e, w)
  /\ activate_dynamic_rule lib client args w = (raised e, w)
  /\ activate_gy_redirect lib client args w = (raised e, w)
  /\ deactivate_gy_flows lib client args w = (raised e, w)
  /\ update_quota lib client args w = (raised e, w).
Proof.
  intros Hsid.
  unfold activate_flows, deactivate_flows, activate_dynamic_rule,
    activate_gy_redirect, deactivate_gy_flows, update_quota.
  rewrite !(bind_raised _ _ w e w) by (unfold call; now rewrite Hsid).
  repeat split.
Qed.

Lemma unencodable_subscriber_sends_nothing_witness :
  let e := OtherException "ValueError" in
  let lib := lib_of (raised e) (returned "") (returned ∅) (returned []) in
  SIDUtils_to_pb lib (imsi default_args) = raised e
  /\ (activate_flows lib sample_stub default_args empty_world
      = (raised e, empty_world)
      /\ deactivate_flows lib sample_stub default_args empty_world
         = (raised e, empty_world)
      /\ activate_dynamic_rule lib sample_stub default_args empty_world
         = (raised e, empty_world)
      /\ activate_gy_redirect lib sample_stub default_args empty_world
         = (raised e, empty_world)
      /\ deactivate_gy_flows lib sample_stub default_args empty_world
         = (raised e, empty_world)
      /\ update_quota lib sample_stub default_args empty_world
         = (raised e, empty_world)).
Proof.
  intros e lib. split; [reflexivity|].
  apply (unencodable_subscriber_sends_nothing lib sample_stub default_args e
           empty_world).
  reflexivity.
Defined.

(** X4. When the destination address of [activate_dynamic_rule] cannot be
    converted, the command ends with that exception, having printed
    nothing and issued no RPC. *)
Theorem unconvertible_address_sends_nothing lib client args sid e w :
  SIDUtils_to_pb lib (imsi args) = returned sid ->
  convert_ipv4_str_to_ip_proto lib (ipv4_dst args) = raised e ->
  activate_dynamic_rule lib client args w = (raised e, w).
Proof.
  intros Hsid Hdst. unfold activate_dynamic_rule.
  rewrite (bind_returned _ _ w sid w) by (unfold call; now rewrite Hsid).
  now rewrite (bind_raised _ _ w e w) by (unfold call; now rewrite Hdst).
Qed.

Lemma unconvertible_address_sends_nothing_witness :
  let e := OtherException "ValueError" in
  let lib := lib_of (returned "IMSI12345") (raised e) (returned ∅)
               (returned []) in
  SIDUtils_to_pb lib (imsi default_args) = returned "IMSI12345"
  /\ convert_ipv4_str_to_ip_proto lib (ipv4_dst default_args) = raised e
  /\ activate_dynamic_rule lib sample_stub default_args empty_world
     = (raised e, empty_world).
Proof.
  intros e lib. split; [reflexivity|]. split; [reflexivity|].
  apply (unconvertible_address_sends_nothing lib sample_stub default_args
           "IMSI12345" e empty_world); reflexivity.
Defined.



(** ** Rule-id lists *)

(** X6. The rule ids [activate_flows] sends are the comma-separated
    pieces of its argument: joined by commas they give the argument back,
    there is one more of them than there are commas in the argument, and
    none of them holds a comma. *)
Theorem activate_flows_rule_ids_are_the_pieces lib client args sid ids w :
  SIDUtils_to_pb lib (imsi args) = returned sid ->
  rule_ids args = Some ids ->
  exists request,
    rpcs (activate_flows lib client args w).2
    = rpcs w ++ [RpcActivateFlows request]
    /\ Py.join "," (ActivateFlowsRequest.rule_ids request) = ids
    /\ List.length (ActivateFlowsRequest.rule_ids request)
       = S (count_sep "," ids)
    /\ Forall (fun i => count_sep "," i = 0)
              (ActivateFlowsRequest.rule_ids request).
Proof.
  intros Hsid Hids. eexists.
  split; [exact (activate_flows_rpcs lib client args sid ids w Hsid Hids)|].
  simpl. split; [apply join_split|].
  split; [apply length_split|apply split_pieces_no_sep].
Qed.

Lemma activate_flows_rule_ids_are_the_pieces_witness :
  let lib := sample_lib (returned []) in
  let args := with_rule_ids (Some "rule1,,rule2") default_args in
  SIDUtils_to_pb lib (imsi args) = returned "IMSI12345"
  /\ rule_ids args = Some "rule1,,rule2"
  /\ exists request,
       rpcs (activate_flows lib sample_stub args empty_world).2
       = rpcs empty_world ++ [RpcActivateFlows request]
       /\ Py.join "," (ActivateFlowsRequest.rule_ids request)
          = "rule1,,rule2"
       /\ List.length (ActivateFlowsRequest.rule_ids request)
          = S (count_sep "," "rule1,,rule2")
       /\ Forall (fun i => count_sep "," i = 0)
                 (ActivateFlowsRequest.rule_ids request).
Proof.
  intros lib args. do 2 (split; [reflexivity|]).
  apply (activate_flows_rule_ids_are_the_pieces lib sample_stub args
           "IMSI12345" "rule1,,rule2" empty_world); reflexivity.
Defined.

(** X7. Rule ids that hold no comma reach the request intact: given the
    ids joined by commas, [activate_flows] sends exactly those ids, in
    order. *)
Theorem activate_flows_sends_joined_ids lib client args sid ids w :
  SIDUtils_to_pb lib (imsi args) = returned sid ->
  ids <> [] ->
  Forall (fun i => count_sep "," i = 0) ids ->
  rule_ids args = Some (Py.join "," ids) ->
  rpcs (activate_flows lib client args w).2
  = rpcs w ++ [RpcActivateFlows
                 (ActivateFlowsRequest.mk sid (ipv4 args) ids [] GX)].
Proof.
  intros Hsid Hne Hall Hids.
  rewrite (activate_flows_rpcs lib client args sid _ w Hsid Hids).
  now rewrite (split_join "," ids Hne Hall).
Qed.

Lemma activate_flows_sends_joined_ids_witness :
  let lib := sample_lib (returned []) in
  let ids := ["rule1"; "rule2"; "rule3"] in
  let args := with_rule_ids (Some "rule1,rule2,rule3") default_args in
  SIDUtils_to_pb lib (imsi args) = returned "IMSI12345"
  /\ ids <> []
  /\ Forall (fun i => count_sep "," i = 0) ids
  /\ rule_ids args = Some (Py.join "," ids)
  /\ rpcs (activate_flows lib sample_stub args empty_world).2
     = rpcs empty_world
       ++ [RpcActivateFlows
             (ActivateFlowsRequest.mk "IMSI12345" (ipv4 args) ids [] GX)].
Proof.
  intros lib ids args.
  assert (Hne : ids <> []) by discriminate.
  assert (Hall : Forall (fun i => count_sep "," i = 0) ids)
    by (repeat constructor).
  split; [reflexivity|]. split; [exact Hne|]. split; [exact Hall|].
  split; [reflexivity|].
  exact (activate_flows_sends_joined_ids lib sample_stub args "IMSI12345"
           ids empty_world eq_refl Hne Hall eq_refl).
Defined.

(** X8. A deactivation request names no rule exactly when the rule-id
    argument is omitted or empty; a non-empty argument always names at
    least one rule, the pieces of the argument, so it never turns into
    the request that names none. Both deactivation commands send the same
    rule ids. *)
Theorem deactivation_names_rules_iff_given lib client args sid w :
  SIDUtils_to_pb lib (imsi args) = returned sid ->
  exists ids,
    rpcs (deactivate_flows lib client args w).2
    = rpcs w ++ [RpcDeactivateFlows
                   (DeactivateFlowsRequest.mk sid (ipv4 args) ids GX)]
    /\ rpcs (deactivate_gy_flows lib client args w).2
       = rpcs w ++ [RpcDeactivateFlows
                      (DeactivateFlowsRequest.mk sid (ipv4 args) ids GY)]
    /\ (ids = [] <-> rule_ids args = None \/ rule_ids args = Some "")
    /\ (forall s, rule_ids args = Some s -> s <> "" ->
        ids = Py.split "," s).
Proof.
  intros Hsid.
  destruct (deactivation_rpcs lib client args sid w Hsid) as [Hgx Hgy].
  simpl in Hgx, Hgy.
  exists (match rule_ids args with
          | Some s => if String.eqb s "" then [] else Py.split "," s
          | None => []
          end).
  split; [exact Hgx|]. split; [exact Hgy|]. clear Hgx Hgy.
  destruct (rule_ids args) as [s|].
  - destruct (String.eqb_spec s "") as [Hs|Hs].
    + split; [split; [right; now rewrite Hs|reflexivity]|].
      intros s' [= <-] Hne. contradiction.
    + split.
      * split; [intros H; now apply split_not_nil in H|].
        intros [H|[= H]]; [discriminate|contradiction].
      * now intros s' [= <-] _.
  - split; [split; [now left|reflexivity]|]. intros s [=].
Qed.

Lemma deactivation_names_rules_iff_given_witness :
  let lib := sample_lib (returned []) in
  let args := with_rule_ids (Some "rule1,rule2") default_args in
  SIDUtils_to_pb lib (imsi args) = returned "IMSI12345"
  /\ exists ids,
       rpcs (deactivate_flows lib sample_stub args empty_world).2
       = rpcs empty_world
         ++ [RpcDeactivateFlows
               (DeactivateFlowsRequest.mk "IMSI12345" (ipv4 args) ids GX)]
       /\ rpcs (deactivate_gy_flows lib sample_stub args empty_world).2
          = rpcs empty_world
            ++ [RpcDeactivateFlows
                  (DeactivateFlowsRequest.mk "IMSI12345" (ipv4 args) ids
                     GY)]
       /\ (ids = [] <-> rule_ids args = None \/ rule_ids args = Some "")
       /\ (forall s, rule_ids args = Some s -> s <> "" ->
           ids = Py.split "," s).
Proof.
  intros lib args. split; [reflexivity|].
  apply (deactivation_names_rules_iff_given lib sample_stub args
           "IMSI12345" empty_world).
  reflexivity.
Defined.

(** X9. The deactivation commands never print: whatever the arguments,
    the collaborators and the stub do, standard output is left as it
    was. *)
Theorem deactivation_never_prints lib client args w :
  stdout (deactivate_flows lib client args w).2 = stdout w
  /\ stdout (deactivate_gy_flows lib client args w).2 = stdout w.
Proof.
  unfold deactivate_flows, deactivate_gy_flows, bind, call, rpc, deref, ret.
  destruct (SIDUtils_to_pb lib (imsi args)) as [e|sid]; simpl;
    [split; reflexivity|].
  destruct (rule_ids args) as [s|]; simpl;
    [destruct (String.eqb s ""); simpl|];
    repeat match goal with
           | |- context [DeactivateFlows client ?request] =>
               destruct (DeactivateFlows client request)
           end;
    split; reflexivity.
Qed.

(** ** How many RPCs a command issues *)

Lemma keeps_rpcs_raise {A} e : keeps_rpcs (@raise A e).
Proof. now intros w. Qed.

Lemma keeps_rpcs_deref {A} (o : option A) : keeps_rpcs (deref o).
Proof. destruct o; [apply keeps_rpcs_ret|apply keeps_rpcs_raise]. Qed.

Lemma keeps_rpcs_getitem {V} (d : gmap string V) key :
  keeps_rpcs (getitem d key).
Proof.
  unfold getitem.
  destruct (d !! key); [apply keeps_rpcs_ret|apply keeps_rpcs_raise].
Qed.

Lemma keeps_rpcs_try_except {A B} (body : Cmd A) handler (rest : A -> Cmd B) :
  keeps_rpcs body ->
  (forall e h, handler e = Some h -> keeps_rpcs h) ->
  (forall a, keeps_rpcs (rest a)) ->
  keeps_rpcs (try_except body handler rest).
Proof.
  intros Hb Hh Hr w. unfold try_except. specialize (Hb w).
  destruct (body w) as [[e|a] w']; simpl in *.
  - destruct (handler e) as [h|] eqn:E; [|exact Hb].
    now rewrite (Hh e h E).
  - now rewrite Hr.
Qed.

Lemma keeps_rpcs_dump (dump : Exc (list string)) :
  keeps_rpcs (try_except (call dump) dump_failed (fun l => for_ l print)).
Proof.
  apply keeps_rpcs_try_except.
  - apply keeps_rpcs_call.
  - intros [returncode|name] h; simpl; [|discriminate].
    intros [= <-].
    destruct (Z.eqb returncode EPERM);
      [apply keeps_rpcs_print|apply keeps_rpcs_ret].
  - intros l. apply keeps_rpcs_for. intros x. apply keeps_rpcs_print.
Qed.

Lemma at_most_one_keeps {A} (c : Cmd A) :
  keeps_rpcs c -> issues_at_most_one c.
Proof.
  intros Hc w. exists []. rewrite app_nil_r. split; [apply Hc|simpl; lia].
Qed.

Lemma at_most_one_after {A B} (c : Cmd A) (k : A -> Cmd B) :
  keeps_rpcs c -> (forall a, issues_at_most_one (k a)) ->
  issues_at_most_one (bind c k).
Proof.
  intros Hc Hk w. unfold bind. specialize (Hc w).
  destruct (c w) as [[e|a] w']; simpl in *.
  - exists []. rewrite app_nil_r. split; [exact Hc|simpl; lia].
  - destruct (Hk a w') as (issued & Hi & Hlen).
    exists issued. now rewrite Hi, Hc.
Qed.

Lemma at_most_one_rpc {A B} r (response : Exc A) (k : A -> Cmd B) :
  (forall a, keeps_rpcs (k a)) ->
  issues_at_most_one (bind (rpc r response) k).
Proof.
  intros Hk w. exists [r]. split; [|simpl; lia].
  unfold bind, rpc. destruct response as [e|a]; simpl; [reflexivity|].
  now rewrite Hk.
Qed.

Lemma at_most_one_display_flows lib client apps :
  issues_at_most_one (_display_flows lib client apps).
Proof.
  unfold _display_flows.
  apply at_most_one_after; [apply keeps_rpcs_call|intros config].
  apply at_most_one_after; [apply keeps_rpcs_getitem|intros bridge].
  apply at_most_one_rpc. intros response. apply keeps_rpcs_dump.
Qed.

(** X10. Every command issues at most one RPC, whatever its arguments,
    the collaborators and the stub do, and leaves the RPCs issued before
    it in place. *)
Theorem commands_issue_at_most_one_rpc lib client args :
  Forall (fun cmd : Cmd unit =>
            forall w, exists issued,
              rpcs (cmd w).2 = rpcs w ++ issued
              /\ List.length issued <= 1)
         (all_commands lib client args).
Proof.
  assert (Hdeact : forall origin,
            issues_at_most_one
              (bind (call (SIDUtils_to_pb lib (imsi args)))
                 (fun sid =>
                    bind (if Py.truthy (rule_ids args)
                          then bind (deref (rule_ids args))
                                    (fun s => ret (Py.split "," s))
                          else ret [])
                      (fun ids =>
                         rpc (RpcDeactivateFlows
                                (DeactivateFlowsRequest.mk sid (ipv4 args)
                                   ids origin))
                             (DeactivateFlows client
                                (DeactivateFlowsRequest.mk sid (ipv4 args)
                                   ids origin)))))).
  { intros origin.
    apply at_most_one_after; [apply keeps_rpcs_call|intros sid].
    apply at_most_one_after.
    - destruct (Py.truthy (rule_ids args)); [|apply keeps_rpcs_ret].
      apply keeps_rpcs_bind; [apply keeps_rpcs_deref|].
      intros s; apply keeps_rpcs_ret.
    - intros ids w. eexists [_]. split; [reflexivity|simpl; lia]. }
  unfold all_commands. repeat apply Forall_cons_2; [..|apply Forall_nil_2].
  - unfold activate_flows.
    apply at_most_one_after; [apply keeps_rpcs_call|intros sid].
    apply at_most_one_after; [apply keeps_rpcs_deref|intros ids].
    apply at_most_one_rpc. intros r.
    apply keeps_rpcs_print_rule_mod_results.
  - exact (Hdeact GX).
  - unfold activate_dynamic_rule.
    apply at_most_one_after; [apply keeps_rpcs_call|intros sid].
    apply at_most_one_after; [apply keeps_rpcs_call|intros dst].
    apply at_most_one_after; [apply keeps_rpcs_call|intros src].
    apply at_most_one_after; [apply keeps_rpcs_call|intros _].
    apply at_most_one_rpc. intros r.
    apply keeps_rpcs_print_rule_mod_results.
  - unfold activate_gy_redirect.
    apply at_most_one_after; [apply keeps_rpcs_call|intros sid].
    apply at_most_one_rpc. intros r.
    apply keeps_rpcs_print_rule_mod_results.
  - exact (Hdeact GY).
  - unfold update_quota.
    apply at_most_one_after; [apply keeps_rpcs_call|intros sid].
    apply at_most_one_after; [apply keeps_rpcs_call|intros _].
    apply at_most_one_rpc. intros [u|];
      [apply keeps_rpcs_ret|apply keeps_rpcs_print].
  - unfold get_table_assignment.
    apply at_most_one_rpc. intros response.
    apply keeps_rpcs_bind.
    + destruct (Py.truthy (apps args)); [|apply keeps_rpcs_ret].
      apply keeps_rpcs_bind; [apply keeps_rpcs_deref|].
      intros s; apply keeps_rpcs_ret.
    + intros l. apply keeps_rpcs_bind; [apply keeps_rpcs_print|intros _].
      apply keeps_rpcs_bind; [apply keeps_rpcs_print|intros _].
      apply keeps_rpcs_for. intros x. apply keeps_rpcs_print.
  - unfold display_raw_flows. apply at_most_one_keeps.
    apply keeps_rpcs_bind; [apply keeps_rpcs_call|intros config].
    apply keeps_rpcs_bind; [apply keeps_rpcs_getitem|intros bridge].
    apply keeps_rpcs_dump.
  - apply at_most_one_display_flows.
  - unfold display_flows. destruct (apps args);
      apply at_most_one_display_flows.
Qed.

(** ** The answer to a quota update *)

(** X11. When the update could be built (the subscriber id and the
    update type were accepted), [update_quota] sends its one update and
    then prints [Error updating check quota flows] exactly when the stub's
    answer is [None]; with any other answer it prints nothing. *)
Theorem update_quota_reports_missing_answer lib client args sid res w :
  SIDUtils_to_pb lib (imsi args) = returned sid ->
  SubscriberQuotaUpdate_validate lib (update_type args) = returned tt ->
  UpdateSubscriberQuotaState client
    (UpdateSubscriberQuotaStateRequest.mk
       [SubscriberQuotaUpdate.mk sid (mac args) (update_type args)])
  = returned res ->
  update_quota lib client args w
  = (returned tt,
     mkWorld (stdout w ++ match res with
                          | None => ["Error updating check quota flows"]
                          | Some _ => []
                          end)
             (rpcs w ++ [RpcUpdateSubscriberQuotaState
                           (UpdateSubscriberQuotaStateRequest.mk
                              [SubscriberQuotaUpdate.mk sid (mac args)
                                 (update_type args)])])).
Proof.
  intros Hsid Hfit Hres. unfold update_quota.
  rewrite (bind_returned _ _ w sid w) by (unfold call; now rewrite Hsid).
  rewrite (bind_returned _ _ w tt w) by (unfold call; now rewrite Hfit).
  unfold bind, rpc. rewrite Hres.
  destruct res as [u|]; simpl; [|reflexivity].
  unfold ret. now rewrite app_nil_r.
Qed.

Lemma update_quota_reports_missing_answer_witness :
  let lib := sample_lib (returned []) in
  let client := answering_stub [] [] None in
  SIDUtils_to_pb lib (imsi default_args) = returned "IMSI12345"
  /\ SubscriberQuotaUpdate_validate lib (update_type default_args)
     = returned tt
  /\ UpdateSubscriberQuotaState client
       (UpdateSubscriberQuotaStateRequest.mk
          [SubscriberQuotaUpdate.mk "IMSI12345" (mac default_args)
             (update_type default_args)])
     = returned None
  /\ update_quota lib client default_args empty_world
     = (returned tt,
        mkWorld (stdout empty_world ++ ["Error updating check quota flows"])
                (rpcs empty_world
                 ++ [RpcUpdateSubscriberQuotaState
                       (UpdateSubscriberQuotaStateRequest.mk
                          [SubscriberQuotaUpdate.mk "IMSI12345"
                             (mac default_args)
                             (update_type default_args)])])).
Proof.
  intros lib client. do 3 (split; [reflexivity|]).
  apply (update_quota_reports_missing_answer lib client default_args
           "IMSI12345" None empty_world); reflexivity.
Defined.

(** ** The table listing *)

Lemma length_string_app (a b : string) :
  String.length (a ++ b)%string = String.length a + String.length b.
Proof. induction a as [|c a IH]; simpl; [reflexivity|now rewrite IH]. Qed.

Lemma length_repeat_char c n : String.length (Py.repeat_char c n) = n.
Proof. induction n as [|n IH]; simpl; [reflexivity|now rewrite IH]. Qed.

Lemma length_ljust width s :
  String.length (Py.ljust width s) = Nat.max width (String.length s).
Proof.
  unfold Py.ljust. rewrite length_string_app, length_repeat_char. lia.
Qed.

(** X12. A line of the table listing is never narrower than 70
    characters and no column is cut: its width is the sum, over the three
    columns, of the larger of the column width (25, 20, 25) and the
    length of the text. The ruler under the header is 70 characters. *)
Theorem table_template_width a b c :
  String.length (table_template a b c)
  = Nat.max 25 (String.length a) + Nat.max 20 (String.length b)
    + Nat.max 25 (String.length c)
  /\ 70 <= String.length (table_template a b c)
  /\ String.length (Py.repeat_char "-" 70) = 70.
Proof.
  assert (H : String.length (table_template a b c)
              = Nat.max 25 (String.length a) + Nat.max 20 (String.length b)
                + Nat.max 25 (String.length c)).
  { unfold table_template.
    rewrite !length_string_app, !length_ljust. lia. }
  split; [exact H|]. split; [lia|apply length_repeat_char].
Qed.

(** X13. The application filter of [get_table_assignment] acts as a set:
    two non-empty filters that name the same applications, in whatever
    order and however often, give the same run. *)
Theorem table_filter_is_a_set client args1 args2 names1 names2 w :
  apps args1 = Some names1 ->
  apps args2 = Some names2 ->
  names1 <> "" ->
  names2 <> "" ->
  (forall name, name ∈ Py.split "," names1 <-> name ∈ Py.split "," names2) ->
  get_table_assignment client args1 w = get_table_assignment client args2 w.
Proof.
  intros H1 H2 Hne1 Hne2 Hsame.
  unfold get_table_assignment, bind, rpc.
  destruct (GetAllTableAssignments client tt) as [e|response];
    [reflexivity|].
  rewrite H1, H2. simpl.
  apply String.eqb_neq in Hne1, Hne2. rewrite Hne1, Hne2. simpl.
  rewrite (list_filter_iff
             (fun a => TableAssignment.app_name a ∈ Py.split "," names1)
             (fun a => TableAssignment.app_name a ∈ Py.split "," names2));
    [reflexivity|].
  intros a. apply Hsame.
Qed.

Lemma table_filter_is_a_set_witness :
  let args1 := with_apps (Some "enforcement,ue_mac") default_args in
  let args2 := with_apps (Some "ue_mac,enforcement,ue_mac") default_args in
  apps args1 = Some "enforcement,ue_mac"
  /\ apps args2 = Some "ue_mac,enforcement,ue_mac"
  /\ "enforcement,ue_mac" <> ""
  /\ "ue_mac,enforcement,ue_mac" <> ""
  /\ (forall name,
        name ∈ Py.split "," "enforcement,ue_mac"
        <-> name ∈ Py.split "," "ue_mac,enforcement,ue_mac")
  /\ get_table_assignment sample_stub args1 empty_world
     = get_table_assignment sample_stub args2 empty_world.
Proof.
  intros args1 args2.
  assert (Hsame : forall name,
            name ∈ Py.split "," "enforcement,ue_mac"
            <-> name ∈ Py.split "," "ue_mac,enforcement,ue_mac").
  { intros name. simpl. rewrite !elem_of_cons, !elem_of_nil. tauto. }
  do 2 (split; [reflexivity|]). do 2 (split; [discriminate|]).
  split; [exact Hsame|].
  exact (table_filter_is_a_set sample_stub args1 args2
           "enforcement,ue_mac" "ue_mac,enforcement,ue_mac" empty_world
           eq_refl eq_refl
           ltac:(discriminate) ltac:(discriminate) Hsame).
Defined.

(** ** The table map of the annotated dump *)

Lemma tables_by_app_snoc l a :
  tables_by_app (l ++ [a])
  = <[TableAssignment.app_name a := tables_entry a]> (tables_by_app l).
Proof. unfold tables_by_app. now rewrite foldl_snoc. Qed.

(** X14. The map [_display_flows] hands to the annotated dump gives, for
    an application name, the tables of the last assignment of the
    snapshot with that name, and nothing for a name the snapshot does not
    hold: a later assignment replaces an earlier one of the same
    application. *)
Theorem tables_by_app_last_wins l name :
  tables_by_app l !! name
  = tables_entry
      <$> last (filter (fun a => TableAssignment.app_name a = name) l).
Proof.
  induction l as [|a l IH] using rev_ind; [reflexivity|].
  rewrite tables_by_app_snoc, filter_app.
  destruct (decide (TableAssignment.app_name a = name)) as [Ha|Ha].
  - rewrite filter_cons_True by exact Ha. rewrite filter_nil, last_snoc.
    rewrite Ha. apply lookup_insert_eq.
  - rewrite filter_cons_False by exact Ha. rewrite filter_nil, app_nil_r.
    rewrite lookup_insert_ne by exact Ha. exact IH.
Qed.

(** ** Failures of the flow commands before the dump *)

Lemma display_enforcement_flows_filter lib client args :
  display_enforcement_flows lib client args
  = _display_flows lib client
      (Some [EnforcementController_APP_NAME lib;
             EnforcementStatsController_APP_NAME lib]).
Proof. reflexivity. Qed.

Lemma _display_flows_no_bridge lib client apps config w :
  load_service_config lib "pipelined" = returned config ->
  config !! "bridge_name" = None ->
  _display_flows lib client apps w = (raised (OtherException "KeyError"), w).
Proof.
  intros Hc Hb. unfold _display_flows.
  rewrite (bind_returned _ _ w config w) by (unfold call; now rewrite Hc).
  now rewrite (bind_raised _ _ w (OtherException "KeyError") w)
    by (unfold getitem; now rewrite Hb).
Qed.

(** X15. When the loaded configuration has no [bridge_name], the three
    flow commands end with [KeyError]: nothing is printed, and the table
    assignments are not even requested. *)
Theorem missing_bridge_name_is_key_error lib client args config w :
  load_service_config lib "pipelined" = returned config ->
  config !! "bridge_name" = None ->
  display_raw_flows lib client args w
  = (raised (OtherException "KeyError"), w)
  /\ display_flows lib client args w
     = (raised (OtherException "KeyError"), w)
  /\ display_enforcement_flows lib client args w
     = (raised (OtherException "KeyError"), w).
Proof.
  intros Hc Hb.
  rewrite display_flows_filter, display_enforcement_flows_filter.
  rewrite !(_display_flows_no_bridge lib client _ config w Hc Hb).
  split; [|split; reflexivity].
  unfold display_raw_flows.
  rewrite (bind_returned _ _ w config w) by (unfold call; now rewrite Hc).
  now rewrite (bind_raised _ _ w (OtherException "KeyError") w)
    by (unfold getitem; now rewrite Hb).
Qed.

Lemma missing_bridge_name_is_key_error_witness :
  let config : gmap string string := {["enable_nat" := "true"]} in
  let lib := lib_of (returned "IMSI12345") (returned "") (returned config)
               (returned ["cookie=0x0, table=0"]) in
  load_service_config lib "pipelined" = returned config
  /\ config !! "bridge_name" = None
  /\ display_raw_flows lib sample_stub default_args empty_world
     = (raised (OtherException "KeyError"), empty_world)
  /\ display_flows lib sample_stub default_args empty_world
     = (raised (OtherException "KeyError"), empty_world)
  /\ display_enforcement_flows lib sample_stub default_args empty_world
     = (raised (OtherException "KeyError"), empty_world).
Proof.
  intros config lib. do 2 (split; [reflexivity|]).
  apply (missing_bridge_name_is_key_error lib sample_stub default_args
           config empty_world); reflexivity.
Defined.

(** X16. The except clause of the flow commands covers the dump only. An
    exception raised while the configuration is loaded leaves the command
    unhandled, also a [CalledProcessError] with return code [EPERM]:
    nothing is printed and no RPC is issued. *)
Theorem config_failure_is_not_handled lib client args e w :
  load_service_config lib "pipelined" = raised e ->
  display_raw_flows lib client args w = (raised e, w)
  /\ display_flows lib client args w = (raised e, w)
  /\ display_enforcement_flows lib client args w = (raised e, w).
Proof.
  intros Hc.
  rewrite display_flows_filter, display_enforcement_flows_filter.
  unfold display_raw_flows, _display_flows.
  rewrite !(bind_raised _ _ w e w) by (unfold call; now rewrite Hc).
  repeat split.
Qed.

Lemma config_failure_is_not_handled_witness :
  let e := CalledProcessError EPERM in
  let lib := lib_of (returned "IMSI12345") (returned "") (raised e)
               (returned []) in
  load_service_config lib "pipelined" = raised e
  /\ display_raw_flows lib sample_stub default_args empty_world
     = (raised e, empty_world)
  /\ display_flows lib sample_stub default_args empty_world
     = (raised e, empty_world)
  /\ display_enforcement_flows lib sample_stub default_args empty_world
     = (raised e, empty_world).
Proof.
  intros e lib. split; [reflexivity|].
  apply (config_failure_is_not_handled lib sample_stub default_args e
           empty_world).
  reflexivity.
Defined.

(** X17. When the table-assignment RPC of [display_flows] or
    [display_enforcement_flows] raises, the command ends with that
    exception, whatever the dump would have done: the RPC was issued and
    nothing is printed, also for a [CalledProcessError] with return code
    [EPERM]. *)
Theorem table_rpc_failure_is_not_handled
    lib client args config bridge e w :
  load_service_config lib "pipelined" = returned config ->
  config !! "bridge_name" = Some bridge ->
  GetAllTableAssignments client tt = raised e ->
  display_flows lib client args w
  = (raised e, mkWorld (stdout w) (rpcs w ++ [RpcGetAllTableAssignments]))
  /\ display_enforcement_flows lib client args w
     = (raised e,
        mkWorld (stdout w) (rpcs w ++ [RpcGetAllTableAssignments])).
Proof.
  intros Hc Hb Hrpc.
  rewrite display_flows_filter, display_enforcement_flows_filter.
  unfold _display_flows.
  rewrite !(bind_returned _ _ w config w) by (unfold call; now rewrite Hc).
  rewrite !(bind_returned _ _ w bridge w)
    by (unfold getitem; now rewrite Hb).
  rewrite !(bind_raised _ _ w e
              (mkWorld (stdout w) (rpcs w ++ [RpcGetAllTableAssignments])))
    by (unfold rpc; now rewrite Hrpc).
  split; reflexivity.
Qed.

Lemma table_rpc_failure_is_not_handled_witness :
  let e := CalledProcessError EPERM in
  let config : gmap string string := {["bridge_name" := "gtp_br0"]} in
  let lib := sample_lib (returned ["cookie=0x0, table=0"]) in
  let client := failing_stub e in
  load_service_config lib "pipelined" = returned config
  /\ config !! "bridge_name" = Some "gtp_br0"
  /\ GetAllTableAssignments client tt = raised e
  /\ display_flows lib client default_args empty_world
     = (raised e,
        mkWorld (stdout empty_world)
                (rpcs empty_world ++ [RpcGetAllTableAssignments]))
  /\ display_enforcement_flows lib client default_args empty_world
     = (raised e,
        mkWorld (stdout empty_world)
                (rpcs empty_world ++ [RpcGetAllTableAssignments])).
Proof.
  intros e config lib client. do 3 (split; [reflexivity|]).
  apply (table_rpc_failure_is_not_handled lib client default_args config
           "gtp_br0" e empty_world); reflexivity.
Defined.

(** ** The flow listing *)

(** X18. [display_enforcement_flows] is [display_flows] with the names of
    the two enforcement applications as filter: when neither name holds a
    comma, it runs as [display_flows] does with [--apps] set to the two
    names joined by a comma. *)
Theorem display_enforcement_flows_as_filtered lib client args args' :
  count_sep "," (EnforcementController_APP_NAME lib) = 0 ->
  count_sep "," (EnforcementStatsController_APP_NAME lib) = 0 ->
  apps args'
  = Some (Py.join "," [EnforcementController_APP_NAME lib;
                       EnforcementStatsController_APP_NAME lib]) ->
  display_enforcement_flows lib client args = display_flows lib client args'.
Proof.
  intros He Hs Happs.
  rewrite display_flows_filter, display_enforcement_flows_filter, Happs.
  cbv [fmap option_fmap option_map].
  rewrite split_join; [reflexivity|discriminate|].
  repeat constructor; assumption.
Qed.

Lemma display_enforcement_flows_as_filtered_witness :
  let lib := sample_lib (returned ["cookie=0x0, table=13"]) in
  let args' := with_apps (Some "enforcement,enforcement_stats")
                 default_args in
  count_sep "," (EnforcementController_APP_NAME lib) = 0
  /\ count_sep "," (EnforcementStatsController_APP_NAME lib) = 0
  /\ apps args'
     = Some (Py.join "," [EnforcementController_APP_NAME lib;
                          EnforcementStatsController_APP_NAME lib])
  /\ display_enforcement_flows lib sample_stub default_args
     = display_flows lib sample_stub args'.
Proof.
  intros lib args'. do 3 (split; [reflexivity|]).
  apply (display_enforcement_flows_as_filtered lib sample_stub default_args
           args'); reflexivity.
Defined.

(** X19. When the dump succeeds, [display_raw_flows] and [display_flows]
    print the dumped flows, one per line and in the order of the dump,
    and return; [display_flows] has issued the table-assignment RPC,
    [display_raw_flows] none. *)
Theorem flows_are_printed_in_order
    lib client args config bridge response raw annotated w :
  load_service_config lib "pipelined" = returned config ->
  config !! "bridge_name" = Some bridge ->
  GetAllTableAssignments client tt = returned response ->
  BridgeTools_get_flows_for_bridge lib bridge (table_num args)
  = returned raw ->
  BridgeTools_get_annotated_flows_for_bridge lib bridge
    (tables_by_app (AllTableAssignments.table_assignments response))
    (Py.split "," <$> apps args)
  = returned annotated ->
  display_raw_flows lib client args w
  = (returned tt, mkWorld (stdout w ++ raw) (rpcs w))
  /\ display_flows lib client args w
     = (returned tt,
        mkWorld (stdout w ++ annotated)
                (rpcs w ++ [RpcGetAllTableAssignments])).
Proof.
  intros Hc Hb Hresp Hraw Hann.
  rewrite display_flows_filter.
  rewrite (display_raw_flows_run lib client config bridge Hc Hb).
  rewrite (_display_flows_run lib client config bridge Hc Hb response)
    by exact Hresp.
  rewrite (dump_returned _ _ _ Hraw), (dump_returned _ _ _ Hann).
  split; reflexivity.
Qed.

Lemma flows_are_printed_in_order_witness :
  let flows := ["cookie=0x0, table=0, priority=10";
                "cookie=0x0, table=13, priority=999"] in
  let lib := sample_lib (returned flows) in
  let config : gmap string string := {["bridge_name" := "gtp_br0"]} in
  let response := AllTableAssignments.mk sample_tables in
  load_service_config lib "pipelined" = returned config
  /\ config !! "bridge_name" = Some "gtp_br0"
  /\ GetAllTableAssignments sample_stub tt = returned response
  /\ BridgeTools_get_flows_for_bridge lib "gtp_br0"
       (table_num default_args)
     = returned flows
  /\ BridgeTools_get_annotated_flows_for_bridge lib "gtp_br0"
       (tables_by_app (AllTableAssignments.table_assignments response))
       (Py.split "," <$> apps default_args)
     = returned flows
  /\ display_raw_flows lib sample_stub default_args empty_world
     = (returned tt,
        mkWorld (stdout empty_world ++ flows) (rpcs empty_world))
  /\ display_flows lib sample_stub default_args empty_world
     = (returned tt,
        mkWorld (stdout empty_world ++ flows)
                (rpcs empty_world ++ [RpcGetAllTableAssignments])).
Proof.
  intros flows lib config response. do 5 (split; [reflexivity|]).
  apply (flows_are_printed_in_order lib sample_stub default_args config
           "gtp_br0" response flows flows empty_world); reflexivity.
Defined.

(** ** What an activation prints *)

(** X20. After a successful activation (the request could be built, the
    stub answered and every result code has a name) [activate_flows]
    prints the results of the static rules only, and
    [activate_dynamic_rule] and [activate_gy_redirect] print the results
    of the dynamic rules only, one line per result in the order of the
    response. *)
Theorem activations_print_their_results
    lib client args sid dst ids static dynamic static_names dynamic_names
    w :
  SIDUtils_to_pb lib (imsi args) = returned sid ->
  convert_ipv4_str_to_ip_proto lib (ipv4_dst args) = returned dst ->
  PolicyRule_validate lib (priority args) (hard_timeout args)
  = returned tt ->
  rule_ids args = Some ids ->
  (forall request,
     ActivateFlows client request
     = returned (ActivateFlowsResult.mk static dynamic)) ->
  Forall2 (fun r n =>
             RuleModResult_Result_Name lib (RuleModResult.result r)
             = returned n) static static_names ->
  Forall2 (fun r n =>
             RuleModResult_Result_Name lib (RuleModResult.result r)
             = returned n) dynamic dynamic_names ->
  ((activate_flows lib client args w).1 = returned tt
   /\ stdout (activate_flows lib client args w).2
      = stdout w ++ zip_with result_line static static_names)
  /\ ((activate_dynamic_rule lib client args w).1 = returned tt
      /\ stdout (activate_dynamic_rule lib client args w).2
         = stdout w ++ zip_with result_line dynamic dynamic_names)
  /\ ((activate_gy_redirect lib client args w).1 = returned tt
      /\ stdout (activate_gy_redirect lib client args w).2
         = stdout w ++ zip_with result_line dynamic dynamic_names).
Proof.
  intros Hsid Hdst Hfit Hids Hact Hs Hd.
  assert (Ps : forall w',
            _print_rule_mod_results lib static w'
            = (returned tt,
               mkWorld (stdout w' ++ zip_with result_line static static_names)
                       (rpcs w'))).
  { intros w'.
    pose proof (print_results_prefix lib static static_names [] w' Hs) as P.
    now rewrite app_nil_r in P. }
  assert (Pd : forall w',
            _print_rule_mod_results lib dynamic w'
            = (returned tt,
               mkWorld (stdout w'
                        ++ zip_with result_line dynamic dynamic_names)
                       (rpcs w'))).
  { intros w'.
    pose proof (print_results_prefix lib dynamic dynamic_names [] w' Hd)
      as P.
    now rewrite app_nil_r in P. }
  split; [|split].
  - unfold activate_flows.
    rewrite (bind_returned _ _ w sid w) by (unfold call; now rewrite Hsid).
    rewrite (bind_returned _ _ w ids w) by (now rewrite Hids).
    unfold bind, rpc. rewrite Hact. simpl. rewrite Ps. split; reflexivity.
  - unfold activate_dynamic_rule.
    rewrite (bind_returned _ _ w sid w) by (unfold call; now rewrite Hsid).
    rewrite !(bind_returned _ _ w dst w) by (unfold call; now rewrite Hdst).
    rewrite (bind_returned _ _ w tt w) by (unfold call; now rewrite Hfit).
    unfold bind, rpc. rewrite Hact. simpl. rewrite Pd. split; reflexivity.
  - unfold activate_gy_redirect.
    rewrite (bind_returned _ _ w sid w) by (unfold call; now rewrite Hsid).
    unfold bind, rpc. rewrite Hact. simpl. rewrite Pd. split; reflexivity.
Qed.

Lemma activations_print_their_results_witness :
  let lib := sample_lib (returned []) in
  let static := [RuleModResult.mk "rule1" 0; RuleModResult.mk "rule2" 0] in
  let dynamic := [RuleModResult.mk "redirect" 0] in
  let client := answering_stub static dynamic (Some tt) in
  let args := with_rule_ids (Some "rule1,rule2") default_args in
  let w := empty_world in
  SIDUtils_to_pb lib (imsi args) = returned "IMSI12345"
  /\ convert_ipv4_str_to_ip_proto lib (ipv4_dst args) = returned ""
  /\ PolicyRule_validate lib (priority args) (hard_timeout args)
     = returned tt
  /\ rule_ids args = Some "rule1,rule2"
  /\ (forall request,
        ActivateFlows client request
        = returned (ActivateFlowsResult.mk static dynamic))
  /\ Forall2 (fun r n =>
                RuleModResult_Result_Name lib (RuleModResult.result r)
                = returned n) static ["SUCCESS"; "SUCCESS"]
  /\ Forall2 (fun r n =>
                RuleModResult_Result_Name lib (RuleModResult.result r)
                = returned n) dynamic ["SUCCESS"]
  /\ ((activate_flows lib client args w).1 = returned tt
      /\ stdout (activate_flows lib client args w).2
         = stdout w ++ zip_with result_line static ["SUCCESS"; "SUCCESS"])
  /\ ((activate_dynamic_rule lib client args w).1 = returned tt
      /\ stdout (activate_dynamic_rule lib client args w).2
         = stdout w ++ zip_with result_line dynamic ["SUCCESS"])
  /\ ((activate_gy_redirect lib client args w).1 = returned tt
      /\ stdout (activate_gy_redirect lib client args w).2
         = stdout w ++ zip_with result_line dynamic ["SUCCESS"]).
Proof.
  intros lib static dynamic client args w.
  assert (Hs : Forall2 (fun r n =>
                 RuleModResult_Result_Name lib (RuleModResult.result r)
                 = returned n) static ["SUCCESS"; "SUCCESS"])
    by (repeat constructor).
  assert (Hd : Forall2 (fun r n =>
                 RuleModResult_Result_Name lib (RuleModResult.result r)
                 = returned n) dynamic ["SUCCESS"])
    by (repeat constructor).
  do 4 (split; [reflexivity|]). split; [intros request; reflexivity|].
  split; [exact Hs|]. split; [exact Hd|].
  exact (activations_print_their_results lib client args "IMSI12345" ""
           "rule1,rule2" static dynamic ["SUCCESS"; "SUCCESS"] ["SUCCESS"]
           w eq_refl eq_refl eq_refl eq_refl (fun _ => eq_refl) Hs Hd).
Defined.

(** ** The dynamic rule of [activate_dynamic_rule] *)

(** X21. Whenever the [PolicyRule] constructor accepts the caller's
    priority and hard timeout, the rule [activate_dynamic_rule] sends
    carries the caller's rule id and hard timeout, no redirect, and two
    flow descriptions that mirror each other: uplink traffic to the
    converted [ipv4_dst] and downlink traffic from that same address. The
    request names no static rule. *)
Theorem activate_dynamic_rule_flows_mirror lib client args sid dst w :
  SIDUtils_to_pb lib (imsi args) = returned sid ->
  convert_ipv4_str_to_ip_proto lib (ipv4_dst args) = returned dst ->
  PolicyRule_validate lib (priority args) (hard_timeout args)
  = returned tt ->
  exists request rule up down,
    rpcs (activate_dynamic_rule lib client args w).2
    = rpcs w ++ [RpcActivateFlows request]
    /\ ActivateFlowsRequest.rule_ids request = []
    /\ ActivateFlowsRequest.dynamic_rules request = [rule]
    /\ PolicyRule.id rule = rule_id args
    /\ PolicyRule.hard_timeout rule = hard_timeout args
    /\ PolicyRule.redirect rule = None
    /\ PolicyRule.flow_list rule
       = [FlowDescription.mk up; FlowDescription.mk down]
    /\ FlowMatch.direction up = UPLINK
    /\ FlowMatch.ip_dst up = Some dst
    /\ FlowMatch.ip_src up = None
    /\ FlowMatch.direction down = DOWNLINK
    /\ FlowMatch.ip_src down = Some dst
    /\ FlowMatch.ip_dst down = None.
Proof.
  intros Hsid Hdst Hfit. eexists _, _, _, _.
  split; [exact (activate_dynamic_rule_rpcs lib client args sid dst w
                   Hsid Hdst Hfit)|].
  simpl. repeat split.
Qed.

Lemma activate_dynamic_rule_flows_mirror_witness :
  let lib := lib_of (returned "IMSI12345") (returned "8.8.8.8") (returned ∅)
               (returned []) in
  SIDUtils_to_pb lib (imsi default_args) = returned "IMSI12345"
  /\ convert_ipv4_str_to_ip_proto lib (ipv4_dst default_args)
     = returned "8.8.8.8"
  /\ PolicyRule_validate lib (priority default_args)
       (hard_timeout default_args)
     = returned tt
  /\ exists request rule up down,
       rpcs (activate_dynamic_rule lib sample_stub default_args
               empty_world).2
       = rpcs empty_world ++ [RpcActivateFlows request]
       /\ ActivateFlowsRequest.rule_ids request = []
       /\ ActivateFlowsRequest.dynamic_rules request = [rule]
       /\ PolicyRule.id rule = rule_id default_args
       /\ PolicyRule.hard_timeout rule = hard_timeout default_args
       /\ PolicyRule.redirect rule = None
       /\ PolicyRule.flow_list rule
          = [FlowDescription.mk up; FlowDescription.mk down]
       /\ FlowMatch.direction up = UPLINK
       /\ FlowMatch.ip_dst up = Some "8.8.8.8"
       /\ FlowMatch.ip_src up = None
       /\ FlowMatch.direction down = DOWNLINK
       /\ FlowMatch.ip_src down = Some "8.8.8.8"
       /\ FlowMatch.ip_dst down = None.
Proof.
  intros lib. do 3 (split; [reflexivity|]).
  apply (activate_dynamic_rule_flows_mirror lib sample_stub default_args
           "IMSI12345" "8.8.8.8" empty_world); reflexivity.
Defined.

(** ** Integers the message constructors reject *)

(** X22. When the [PolicyRule] constructor rejects the caller's priority
    or hard timeout, [activate_dynamic_rule] ends with the constructor's
    exception after the subscriber id and the address were converted:
    nothing is printed and no RPC is issued. *)
Theorem rejected_rule_integers_send_nothing lib client args sid dst e w :
  SIDUtils_to_pb lib (imsi args) = returned sid ->
  convert_ipv4_str_to_ip_proto lib (ipv4_dst args) = returned dst ->
  PolicyRule_validate lib (priority args) (hard_timeout args) = raised e ->
  activate_dynamic_rule lib client args w = (raised e, w).
Proof.
  intros Hsid Hdst Hfit. unfold activate_dynamic_rule.
  rewrite (bind_returned _ _ w sid w) by (unfold call; now rewrite Hsid).
  rewrite !(bind_returned _ _ w dst w) by (unfold call; now rewrite Hdst).
  now rewrite (bind_raised _ _ w e w) by (unfold call; now rewrite Hfit).
Qed.

Lemma rejected_rule_integers_send_nothing_witness :
  let lib := sample_lib (returned []) in
  let args := with_priority (-1) default_args in
  let e := OtherException "ValueError" in
  SIDUtils_to_pb lib (imsi args) = returned "IMSI12345"
  /\ convert_ipv4_str_to_ip_proto lib (ipv4_dst args) = returned ""
  /\ PolicyRule_validate lib (priority args) (hard_timeout args) = raised e
  /\ activate_dynamic_rule lib sample_stub args empty_world
     = (raised e, empty_world).
Proof.
  intros lib args e. do 3 (split; [reflexivity|]).
  apply (rejected_rule_integers_send_nothing lib sample_stub args
           "IMSI12345" "" e empty_world); reflexivity.
Defined.

(** X23. When the [SubscriberQuotaUpdate] constructor rejects the caller's
    update type, [update_quota] ends with the constructor's exception:
    nothing is printed and no RPC is issued. *)
Theorem rejected_update_type_sends_nothing lib client args sid e w :
  SIDUtils_to_pb lib (imsi args) = returned sid ->
  SubscriberQuotaUpdate_validate lib (update_type args) = raised e ->
  update_quota lib client args w = (raised e, w).
Proof.
  intros Hsid Hfit. unfold update_quota.
  rewrite (bind_returned _ _ w sid w) by (unfold call; now rewrite Hsid).
  now rewrite (bind_raised _ _ w e w) by (unfold call; now rewrite Hfit).
Qed.

Lemma rejected_update_type_sends_nothing_witness :
  let lib := sample_lib (returned []) in
  let args := with_update_type (2 ^ 64) default_args in
  let e := OtherException "ValueError" in
  SIDUtils_to_pb lib (imsi args) = returned "IMSI12345"
  /\ SubscriberQuotaUpdate_validate lib (update_type args) = raised e
  /\ update_quota lib sample_stub args empty_world = (raised e, empty_world).
Proof.
  intros lib args e. do 2 (split; [reflexivity|]).
  apply (rejected_update_type_sends_nothing lib sample_stub args
           "IMSI12345" e empty_world); reflexivity.
Defined.
